(** * face-detection-mediapipe: the estimators, the flag aggregator and the
      frame scheduler, embedded from the JavaScript sources.

    JavaScript numbers are IEEE-754 binary64 values; they are modelled by the
    primitive floats of the kernel, which are the same binary64 values with the
    same rounding.  Property reads on [undefined]/[null] are the only way the
    embedded functions can throw, so every read goes through the completion
    monad below and "does not raise" is a statement about its result. *)

From Stdlib Require Import ZArith List String Ascii Bool Lia PeanoNat.
From Stdlib Require Import Floats Uint63 DecimalString.
From Stdlib Require Import Permutation Sorted.
Import ListNotations.

Set Warnings "-inexact-float".

(* ------------------------------------------------------------------ *)
(** ** JavaScript values and completions *)

Module Js.

(** The exceptions the modelled code can meet. *)
Inductive Exn : Type :=
| TypeError (msg : string)
| DOMException (msg : string)
| Rejected (msg : string).

(** A normal or an abrupt completion of an expression or a call. *)
Inductive completion (A : Type) : Type :=
| Normal (a : A)
| Throw (e : Exn).
Arguments Normal {A} a.
Arguments Throw {A} e.

Definition bind {A B : Type} (c : completion A) (k : A -> completion B)
  : completion B :=
  match c with
  | Normal a => k a
  | Throw e => Throw e
  end.

Definition raises {A : Type} (c : completion A) : Prop :=
  exists e, c = Throw e.

(** A string-valued property that may be absent ([undefined]) or [null]. *)
Inductive jsstring : Type :=
| JUndefined
| JNull
| JString (s : string).

Definition jsstring_eqb (a b : jsstring) : bool :=
  match a, b with
  | JUndefined, JUndefined => true
  | JNull, JNull => true
  | JString s, JString t => String.eqb s t
  | _, _ => false
  end.

(** [ToBoolean]: the empty string, [null] and [undefined] are falsy. *)
Definition truthy_string (a : jsstring) : bool :=
  match a with
  | JString s => negb (String.eqb s EmptyString)
  | _ => false
  end.

(** A boolean property that may be absent: [None] is [undefined]. *)
Definition truthy_bool (b : option bool) : bool :=
  match b with
  | Some true => true
  | _ => false
  end.

(** An object reference is truthy, [undefined]/[null] is not. *)
Definition truthy_ref {A : Type} (r : option A) : bool :=
  match r with
  | Some _ => true
  | None => false
  end.

(** [ToBoolean] on a number: [0], [-0] and [NaN] are falsy. *)
Definition truthy_number (x : float) : bool :=
  negb (PrimFloat.eqb x 0 || PrimFloat.is_nan x).

(** [Math.min(a, b)]: NaN if either is NaN, and [-0] is below [+0]. *)
Definition Math_min (a b : float) : float :=
  if PrimFloat.is_nan a || PrimFloat.is_nan b then PrimFloat.nan
  else if PrimFloat.ltb a b then a
  else if PrimFloat.ltb b a then b
  else match PrimFloat.classify a with
       | NZero => a
       | _ => b
       end.

(** [Math.max(a, b)]: NaN if either is NaN, and [+0] is above [-0]. *)
Definition Math_max (a b : float) : float :=
  if PrimFloat.is_nan a || PrimFloat.is_nan b then PrimFloat.nan
  else if PrimFloat.ltb b a then a
  else if PrimFloat.ltb a b then b
  else match PrimFloat.classify a with
       | PZero => a
       | _ => b
       end.

Definition Math_abs (x : float) : float := PrimFloat.abs x.
Definition Math_sqrt (x : float) : float := PrimFloat.sqrt x.

(** The exact integer [floor (v + 1/2)] for [v = m * 2^e]. *)
Definition round_half_up (m : Z) (e : Z) : Z :=
  if (0 <=? e)%Z then Z.shiftl m e
  else Z.shiftr (2 * m + Z.shiftl 1 (- e)) (1 - e).

Definition float_of_Z (n : Z) : float :=
  if (n <? 0)%Z then PrimFloat.opp (PrimFloat.of_uint63 (Uint63.of_Z (- n)))
  else PrimFloat.of_uint63 (Uint63.of_Z n).

(** [Math.round(x)]: the integer nearest to [x], ties going up; NaN, the
    infinities and the zeros are returned as they are, and a result that
    rounds to zero from below is [-0]. *)
Definition Math_round (x : float) : float :=
  match Prim2SF x with
  | S754_finite s m e =>
      if (0 <=? e)%Z then x
      else
        let n := round_half_up (if s then Z.neg m else Z.pos m) e in
        if (n =? 0)%Z then (if s then PrimFloat.neg_zero else PrimFloat.zero)
        else float_of_Z n
  | _ => x
  end.

Fixpoint zeros (n : nat) : string :=
  match n with
  | O => EmptyString
  | S k => String "0"%char (zeros k)
  end.

(** The decimal digits of [n], then a point before the last [f] of them,
    padded on the left so that at least one digit stands before the point. *)
Definition fixed_digits (f : nat) (n : N) : string :=
  let m := NilZero.string_of_uint (N.to_uint n) in
  let k := String.length m in
  let m := if (k <=? f)%nat then (zeros (f + 1 - k) ++ m)%string else m in
  let k := String.length m in
  (String.substring 0 (k - f) m ++ "." ++ String.substring (k - f) f m)%string.

(** [x.toFixed(3)] for the numbers the gaze estimator prints, which are NaN
    or lie in [[-1, 1]]: [n] is the integer nearest to [|x| * 1000], ties
    going up.  The infinities print by name; the exponent form that
    [toFixed] switches to from [1e21] on is outside the estimator's range and
    is not rendered (the fixed form is given there too). *)
Definition toFixed3 (x : float) : string :=
  match Prim2SF x with
  | S754_nan => "NaN"%string
  | S754_infinity s => if s then "-Infinity"%string else "Infinity"%string
  | S754_zero _ => "0.000"%string
  | S754_finite s m e =>
      let n := round_half_up (Z.pos m * 1000) e in
      ((if s then "-" else "") ++ fixed_digits 3 (Z.to_N n))%string
  end.

End Js.

Export Js.

Declare Scope js_scope.
Notation "x <- c ;; k" := (bind c (fun x => k))
  (at level 61, c at next level, right associativity) : js_scope.
Open Scope js_scope.

(* ------------------------------------------------------------------ *)
(** ** The landmark array shared by both estimators *)

Module Landmarks.

(** A normalized landmark; the estimators read [x] and [y] only. *)
Record Landmark : Type := mkLandmark { x : float; y : float; z : float }.

(** A face: an array whose entries may be holes ([undefined]). *)
Definition Face : Type := list (option Landmark).

(** [landmarks[i]]: out of range and holes both read as [undefined]. *)
Definition at_index (landmarks : Face) (i : nat) : option Landmark :=
  match nth_error landmarks i with
  | Some (Some p) => Some p
  | _ => None
  end.

(** [p.x] and [p.y]: a read on [undefined] throws a TypeError. *)
Definition prop_x (p : option Landmark) : completion float :=
  match p with
  | Some l => Normal (x l)
  | None => Throw (TypeError "Cannot read properties of undefined (reading 'x')")
  end.

Definition prop_y (p : option Landmark) : completion float :=
  match p with
  | Some l => Normal (y l)
  | None => Throw (TypeError "Cannot read properties of undefined (reading 'y')")
  end.

(** The labels the estimators return (string literals in the source). *)
Inductive Label : Type :=
| LEFT | RIGHT | CENTER | UP | DOWN
| TILTED_LEFT | TILTED_RIGHT | LEVEL | UNKNOWN.

Definition label_name (l : Label) : string :=
  match l with
  | LEFT => "LEFT"
  | RIGHT => "RIGHT"
  | CENTER => "CENTER"
  | UP => "UP"
  | DOWN => "DOWN"
  | TILTED_LEFT => "TILTED_LEFT"
  | TILTED_RIGHT => "TILTED_RIGHT"
  | LEVEL => "LEVEL"
  | UNKNOWN => "UNKNOWN"
  end.

Definition label_eqb (a b : Label) : bool :=
  String.eqb (label_name a) (label_name b).

End Landmarks.

Export Landmarks.

(* ------------------------------------------------------------------ *)
(** ** src/lib/rotationEstimator.js *)

Module RotationEstimator.

Definition NOSE_TIP : nat := 1.
Definition RIGHT_EAR : nat := 234.
Definition LEFT_EAR : nat := 454.
Definition RIGHT_EYE_OUTER : nat := 33.
Definition LEFT_EYE_OUTER : nat := 263.
Definition CHIN : nat := 152.

Definition YAW_THRESHOLD : float := 0.6.
Definition ROLL_THRESHOLD : float := 0.15.

Record Rotation : Type := mkRotation {
  yaw : Label;
  roll : Label;
  isRotated : bool
}.

Definition distance (p1 p2 : option Landmark) : completion float :=
  if negb (truthy_ref p1) || negb (truthy_ref p2) then Normal 0%float
  else
    x1 <- prop_x p1 ;; x2 <- prop_x p2 ;;
    y1 <- prop_y p1 ;; y2 <- prop_y p2 ;;
    let dx := (x1 - x2)%float in
    let dy := (y1 - y2)%float in
    Normal (Math_sqrt (dx * dx + dy * dy)).

Definition estimateYaw (landmarks : Face) : completion Label :=
  let nose := at_index landmarks NOSE_TIP in
  let leftEar := at_index landmarks LEFT_EAR in
  let rightEar := at_index landmarks RIGHT_EAR in
  if negb (truthy_ref nose) || negb (truthy_ref leftEar)
     || negb (truthy_ref rightEar)
  then Normal CENTER
  else
    leftEarDist <- distance nose leftEar ;;
    rightEarDist <- distance nose rightEar ;;
    if PrimFloat.eqb leftEarDist 0 || PrimFloat.eqb rightEarDist 0
    then Normal CENTER
    else
      let ratio := (rightEarDist / leftEarDist)%float in
      if PrimFloat.ltb ratio YAW_THRESHOLD then Normal LEFT
      else if PrimFloat.ltb (1 / YAW_THRESHOLD) ratio then Normal RIGHT
      else Normal CENTER.

Definition estimateRoll (landmarks : Face) : completion Label :=
  let leftEye := at_index landmarks LEFT_EYE_OUTER in
  let rightEye := at_index landmarks RIGHT_EYE_OUTER in
  if negb (truthy_ref leftEye) || negb (truthy_ref rightEye)
  then Normal LEVEL
  else
    eyeDistance <- distance leftEye rightEye ;;
    if PrimFloat.eqb eyeDistance 0 then Normal LEVEL
    else
      ly <- prop_y leftEye ;; ry <- prop_y rightEye ;;
      let heightDiff := ((ly - ry) / eyeDistance)%float in
      if PrimFloat.ltb ROLL_THRESHOLD heightDiff then Normal TILTED_RIGHT
      else if PrimFloat.ltb heightDiff (- ROLL_THRESHOLD) then Normal TILTED_LEFT
      else Normal LEVEL.

(** [landmarks] is [None] for a [null]/[undefined] argument. *)
Definition analyzeRotation (landmarks : option Face) : completion Rotation :=
  match landmarks with
  | None => Normal (mkRotation UNKNOWN UNKNOWN false)
  | Some lm =>
      if (List.length lm <? 478)%nat
      then Normal (mkRotation UNKNOWN UNKNOWN false)
      else
        yaw <- estimateYaw lm ;;
        roll <- estimateRoll lm ;;
        let isRotated := negb (label_eqb yaw CENTER) in
        Normal (mkRotation yaw roll isRotated)
  end.

End RotationEstimator.

(* ------------------------------------------------------------------ *)
(** ** src/lib/gazeEstimator.js *)

Module GazeEstimator.

Definition RIGHT_IRIS : nat := 468.
Definition LEFT_IRIS : nat := 473.
Definition RIGHT_EYE_OUTER : nat := 33.
Definition RIGHT_EYE_INNER : nat := 133.
Definition RIGHT_EYE_TOP : nat := 27.
Definition RIGHT_EYE_BOTTOM : nat := 23.
Definition LEFT_EYE_INNER : nat := 362.
Definition LEFT_EYE_OUTER : nat := 263.
Definition LEFT_EYE_TOP : nat := 257.
Definition LEFT_EYE_BOTTOM : nat := 253.

Definition HORIZONTAL_THRESHOLD : float := 0.15.
Definition VERTICAL_THRESHOLD : float := 0.25.
Definition MIN_EYE_HEIGHT_RATIO : float := 0.02.

(** The result of [getVerticalOffset]. *)
Record VertResult : Type := mkVert { offset : float; valid : bool }.

(** The strings of the [details] object. *)
Record Details : Type := mkDetails {
  rightH : string; leftH : string; avgH : string;
  rightV : string; leftV : string; avgV : string;
  vValid : bool
}.

Record Gaze : Type := mkGaze {
  horizontalGaze : Label;
  verticalGaze : Label;
  gazeDirection : string;
  isLookingAway : bool;
  confidence : float;
  details : option Details
}.

Definition getNormalizedOffset (irisPos minPos maxPos : float) : float :=
  let center := ((minPos + maxPos) / 2)%float in
  let range := Math_abs (maxPos - minPos) in
  if PrimFloat.ltb range 0.001 then 0%float
  else
    let offset := (((irisPos - center) / range) * 2)%float in
    Math_max (-1) (Math_min 1 offset).

Definition getHorizontalOffset (iris inner outer : option Landmark)
  : completion float :=
  if negb (truthy_ref iris) || negb (truthy_ref inner)
     || negb (truthy_ref outer)
  then Normal 0%float
  else
    ix <- prop_x iris ;; nx <- prop_x inner ;; ox <- prop_x outer ;;
    Normal (getNormalizedOffset ix (Math_min nx ox) (Math_max nx ox)).

Definition getVerticalOffset (iris top bottom : option Landmark)
           (eyeWidth : float) : completion VertResult :=
  if negb (truthy_ref iris) || negb (truthy_ref top)
     || negb (truthy_ref bottom)
  then Normal (mkVert 0 false)
  else
    by_ <- prop_y bottom ;; ty <- prop_y top ;;
    let eyeHeight := Math_abs (by_ - ty) in
    if PrimFloat.ltb 0 eyeWidth
       && PrimFloat.ltb (eyeHeight / eyeWidth) MIN_EYE_HEIGHT_RATIO
    then Normal (mkVert 0 false)
    else
      iy <- prop_y iris ;;
      Normal (mkVert (getNormalizedOffset iy (Math_min ty by_) (Math_max ty by_))
                     true).

(** [(p?.x || 0)]: [0] for a missing landmark and for a falsy [x]. *)
Definition x_or_0 (p : option Landmark) : float :=
  match p with
  | Some l => if truthy_number (x l) then x l else 0%float
  | None => 0%float
  end.

(** [directions.join('_')] *)
Fixpoint join (sep : string) (l : list string) : string :=
  match l with
  | [] => EmptyString
  | [a] => a
  | a :: rest => (a ++ sep ++ join sep rest)%string
  end.

(** The debug line written by [console.log] is not part of the result and is
    left out. *)
Definition analyzeGaze (landmarks : option Face) : completion Gaze :=
  match landmarks with
  | None => Normal (mkGaze UNKNOWN UNKNOWN "UNKNOWN" false 0 None)
  | Some lm =>
      if (List.length lm <? 478)%nat
      then Normal (mkGaze UNKNOWN UNKNOWN "UNKNOWN" false 0 None)
      else
        let rightIris := at_index lm RIGHT_IRIS in
        let leftIris := at_index lm LEFT_IRIS in
        let rightInner := at_index lm RIGHT_EYE_INNER in
        let rightOuter := at_index lm RIGHT_EYE_OUTER in
        let rightTop := at_index lm RIGHT_EYE_TOP in
        let rightBottom := at_index lm RIGHT_EYE_BOTTOM in
        let leftInner := at_index lm LEFT_EYE_INNER in
        let leftOuter := at_index lm LEFT_EYE_OUTER in
        let leftTop := at_index lm LEFT_EYE_TOP in
        let leftBottom := at_index lm LEFT_EYE_BOTTOM in
        let rightEyeWidth := Math_abs (x_or_0 rightOuter - x_or_0 rightInner) in
        let leftEyeWidth := Math_abs (x_or_0 leftOuter - x_or_0 leftInner) in
        rightHorizontal <- getHorizontalOffset rightIris rightInner rightOuter ;;
        leftHorizontal <- getHorizontalOffset leftIris leftInner leftOuter ;;
        let avgHorizontal := ((rightHorizontal + leftHorizontal) / 2)%float in
        rightVertResult <-
          getVerticalOffset rightIris rightTop rightBottom rightEyeWidth ;;
        leftVertResult <-
          getVerticalOffset leftIris leftTop leftBottom leftEyeWidth ;;
        let verticalValid := valid rightVertResult && valid leftVertResult in
        let avgVertical :=
          if verticalValid
          then ((offset rightVertResult + offset leftVertResult) / 2)%float
          else 0%float in
        let horizontalGaze :=
          if PrimFloat.ltb avgHorizontal (- HORIZONTAL_THRESHOLD) then LEFT
          else if PrimFloat.ltb HORIZONTAL_THRESHOLD avgHorizontal then RIGHT
          else CENTER in
        let verticalGaze :=
          if verticalValid
          then if PrimFloat.ltb avgVertical (- VERTICAL_THRESHOLD) then UP
               else if PrimFloat.ltb VERTICAL_THRESHOLD avgVertical then DOWN
               else CENTER
          else CENTER in
        let directions :=
          (if negb (label_eqb verticalGaze CENTER)
           then [label_name verticalGaze] else [])
          ++ (if negb (label_eqb horizontalGaze CENTER)
              then [label_name horizontalGaze] else []) in
        let gazeDirection :=
          if (0 <? List.length directions)%nat then join "_" directions
          else "CENTER"%string in
        let isLookingAway :=
          negb (label_eqb horizontalGaze CENTER)
          || negb (label_eqb verticalGaze CENTER) in
        let hDiff := Math_abs (rightHorizontal - leftHorizontal) in
        let vDiff :=
          if verticalValid
          then Math_abs (offset rightVertResult - offset leftVertResult)
          else 0%float in
        let confidence := Math_max 0 (1 - (hDiff + vDiff)) in
        let details :=
          mkDetails (toFixed3 rightHorizontal) (toFixed3 leftHorizontal)
                    (toFixed3 avgHorizontal)
                    (toFixed3 (offset rightVertResult))
                    (toFixed3 (offset leftVertResult))
                    (toFixed3 avgVertical) verticalValid in
        Normal (mkGaze horizontalGaze verticalGaze gazeDirection
                       isLookingAway confidence (Some details))
  end.

End GazeEstimator.

(* ------------------------------------------------------------------ *)
(** ** The sample passed from the scheduler to the aggregator *)

Module Sample.

(** The object handed to [onAnalysis] and destructured by
    [processAnalysis].  A property the producer leaves out reads as
    [undefined]: [None] for the two booleans, [JUndefined] for the
    direction. *)
Record Sample : Type := mkSample {
  faceCount : nat;
  isRotated : option bool;
  isLookingAway : option bool;
  gazeDirection : jsstring;
  brightness : float;
  processingTime : float
}.

Definition set_brightness (a : Sample) (b : float) : Sample :=
  mkSample (faceCount a) (isRotated a) (isLookingAway a) (gazeDirection a)
           b (processingTime a).

End Sample.

(* ------------------------------------------------------------------ *)
(** ** src/lib/flagManager.js (the variant that tracks gaze direction) *)

Module FlagManager.

Definition FACE_MISSING_THRESHOLD : nat := 3.
Definition LOW_LIGHT_THRESHOLD : float := 50.

Inductive Flag : Type :=
| FACE_OK | FACE_MISSING | MULTIPLE_FACES
| FACE_ROTATED | GAZE_AWAY | LOW_LIGHT.

Definition flag_name (f : Flag) : string :=
  match f with
  | FACE_OK => "FACE_OK"
  | FACE_MISSING => "FACE_MISSING"
  | MULTIPLE_FACES => "MULTIPLE_FACES"
  | FACE_ROTATED => "FACE_ROTATED"
  | GAZE_AWAY => "GAZE_AWAY"
  | LOW_LIGHT => "LOW_LIGHT"
  end.

(** [===] on two flags. *)
Definition flag_eqb (a b : Flag) : bool :=
  String.eqb (flag_name a) (flag_name b).

Record EntryDetails : Type := mkEntryDetails {
  d_faceCount : nat;
  d_isRotated : option bool;
  d_isLookingAway : option bool;
  d_gazeDirection : jsstring;
  d_brightness : float
}.

Record HistoryEntry : Type := mkEntry {
  timestamp : Z;
  flags : list Flag;
  entry_details : EntryDetails
}.

Record FlagState : Type := mkFlagState {
  currentFlags : list Flag;
  gazeDirection : jsstring;
  consecutiveMissing : nat;
  lastUpdate : option Z;
  history : list HistoryEntry
}.

Definition createInitialState : FlagState :=
  mkFlagState [] JNull 0 None [].

(** [Array.prototype.sort] without a comparator orders the elements as
    strings by code unit and is stable; insertion from the right is the same
    ordering. *)
Fixpoint insert_sorted (f : Flag) (l : list Flag) : list Flag :=
  match l with
  | [] => [f]
  | g :: rest =>
      if String.leb (flag_name f) (flag_name g) then f :: l
      else g :: insert_sorted f rest
  end.

Fixpoint sort (l : list Flag) : list Flag :=
  match l with
  | [] => []
  | f :: rest => insert_sorted f (sort rest)
  end.

(** [a.every((val, idx) => val === b[idx])]; past the end of [b] the
    comparison is with [undefined] and fails. *)
Fixpoint every_same (a b : list Flag) : bool :=
  match a with
  | [] => true
  | v :: a' =>
      match b with
      | w :: b' => flag_eqb v w && every_same a' b'
      | [] => false
      end
  end.

Definition arraysEqual (a b : list Flag) : bool :=
  if negb (List.length a =? List.length b)%nat then false
  else every_same (sort a) (sort b).

(** [h.slice(-n)]: the last [n] elements, all of them if there are fewer. *)
Definition slice_last (n : nat) {A : Type} (h : list A) : list A :=
  skipn (List.length h - n) h.

(** [gazeDirection || null] *)
Definition or_null (g : jsstring) : jsstring :=
  if truthy_string g then g else JNull.

(** [now] is the value of [Date.now()] read at the call. *)
Definition processAnalysis (now : Z) (state : FlagState)
           (analysis : Sample.Sample) : FlagState :=
  let faceCount := Sample.faceCount analysis in
  let isRotated := Sample.isRotated analysis in
  let isLookingAway := Sample.isLookingAway analysis in
  let gazeDirection_ := Sample.gazeDirection analysis in
  let brightness := Sample.brightness analysis in
  let '(newFlags, consecutiveMissing_, currentGazeDirection) :=
    if (1 <? faceCount)%nat then
      ([MULTIPLE_FACES], 0%nat, JNull)
    else if (faceCount =? 0)%nat then
      let missing := S (consecutiveMissing state) in
      (if (FACE_MISSING_THRESHOLD <=? missing)%nat then [FACE_MISSING] else [],
       missing, JNull)
    else
      if truthy_bool isRotated then ([FACE_ROTATED], 0%nat, JNull)
      else if truthy_bool isLookingAway then ([GAZE_AWAY], 0%nat, gazeDirection_)
      else ([FACE_OK], 0%nat, JNull) in
  let newFlags :=
    if PrimFloat.ltb brightness LOW_LIGHT_THRESHOLD
    then newFlags ++ [LOW_LIGHT] else newFlags in
  let flagsChanged :=
    negb (arraysEqual (currentFlags state) newFlags)
    || (truthy_bool isLookingAway
        && negb (jsstring_eqb (gazeDirection state) currentGazeDirection)) in
  let history_ :=
    if flagsChanged then
      slice_last 19 (history state)
      ++ [mkEntry now newFlags
            (mkEntryDetails faceCount isRotated isLookingAway
               (or_null gazeDirection_) (Math_round brightness))]
    else history state in
  mkFlagState newFlags currentGazeDirection consecutiveMissing_
              (Some now) history_.

(** Feeding a sequence of timestamped samples, oldest first. *)
Fixpoint feed (state : FlagState) (inputs : list (Z * Sample.Sample))
  : FlagState :=
  match inputs with
  | [] => state
  | (now, a) :: rest => feed (processAnalysis now state a) rest
  end.

End FlagManager.

(* ------------------------------------------------------------------ *)
(** ** frameProcessor.js (the scheduler; stored in src/hooks/useWebcam.js)

    The closure variables of [createFrameProcessor] are the state; what the
    browser answers during a tick (the video element, the clock, the canvas
    calls, the detector) is an input of the tick; the callbacks invoked and
    the calls made to the canvas and the detector are returned as a list of
    effects.  [processFrame] is asynchronous: it is split at its one [await],
    so that other calls can be placed between the two halves.  Console output
    is not modelled, nor is the release of the detector by [cleanup]. *)

Module FrameProcessor.

Definition PROCESS_INTERVAL_MS : nat := 500.
Definition MAX_PROCESSING_MS : float := 200.
Definition MAX_CONSECUTIVE_OVERRUNS : nat := 3.

(** What [detectFaces] resolves to.  The landmark adapter returns the faces
    with their count; the scheduler reads [count] only. *)
Record Detection : Type := mkDetection {
  faces : list Face;
  count : nat
}.

(** The video element as one tick sees it. *)
Record Video : Type := mkVideo {
  readyState : nat;
  videoWidth : nat;
  videoHeight : nat
}.

(** Which of the three callbacks the caller supplied. *)
Record Options : Type := mkOptions {
  has_onAnalysis : bool;
  has_onDisabled : bool;
  has_onError : bool
}.

(** The capture canvas, kept together with its 2d context. *)
Record Canvas : Type := mkCanvas { width : nat; height : nat }.

(** The variables closed over by [createFrameProcessor]. *)
Record State : Type := mkState {
  intervalId : option positive;
  isProcessing : bool;
  consecutiveOverruns : nat;
  isDisabled : bool;
  canvas : option Canvas
}.

Definition initial : State := mkState None false 0 false None.

Definition set_isProcessing (b : bool) (st : State) : State :=
  mkState (intervalId st) b (consecutiveOverruns st) (isDisabled st) (canvas st).
Definition set_consecutiveOverruns (n : nat) (st : State) : State :=
  mkState (intervalId st) (isProcessing st) n (isDisabled st) (canvas st).
Definition set_isDisabled (b : bool) (st : State) : State :=
  mkState (intervalId st) (isProcessing st) (consecutiveOverruns st) b (canvas st).
Definition set_intervalId (i : option positive) (st : State) : State :=
  mkState i (isProcessing st) (consecutiveOverruns st) (isDisabled st) (canvas st).
Definition set_canvas (c : option Canvas) (st : State) : State :=
  mkState (intervalId st) (isProcessing st) (consecutiveOverruns st)
          (isDisabled st) c.

(** A callback invocation, i.e. an emitted event. *)
Inductive Callback : Type :=
| onAnalysis (sample : Sample.Sample)
| onDisabled (reason : string)
| onError (error : Exn).

(** What a cycle does to the outside, in order. *)
Inductive Effect : Type :=
| drawImage
| detectFaces
| getImageData
| call (c : Callback).

(** What the environment answers during one tick. *)
Record Frame : Type := mkFrame {
  video : option Video;               (* [videoElement], [None] when null *)
  startTime : float;                  (* [performance.now()] at the start *)
  drawn : completion unit;            (* [ctx.drawImage(...)] *)
  detected : completion Detection;    (* [await detectFaces(frame)] *)
  pixels : completion (list Byte.byte); (* [ctx.getImageData(...).data] *)
  endTime : float                     (* [performance.now()] at the end *)
}.

(** [data[i]] as a number; past the end it is [undefined], hence NaN in the
    arithmetic. *)
Definition data_at (data : list Byte.byte) (i : nat) : float :=
  match nth_error data i with
  | Some v => PrimFloat.of_uint63 (Uint63.of_Z (Z.of_N (Byte.to_N v)))
  | None => PrimFloat.nan
  end.

Definition sampleStep : nat := 10.

(** The [for] loop of [calculateBrightness]; [fuel] bounds the iterations. *)
Fixpoint brightness_loop (fuel : nat) (data : list Byte.byte) (i : nat)
         (totalBrightness : float) (sampleCount : nat) : float * nat :=
  match fuel with
  | O => (totalBrightness, sampleCount)
  | S fuel' =>
      if (i <? List.length data)%nat then
        let r := data_at data i in
        let g := data_at data (i + 1) in
        let b := data_at data (i + 2) in
        brightness_loop fuel' data (i + 4 * sampleStep)
          (totalBrightness + (0.299 * r + 0.587 * g + 0.114 * b))%float
          (S sampleCount)
      else (totalBrightness, sampleCount)
  end.

Definition calculateBrightness (data : list Byte.byte) : float :=
  let '(totalBrightness, sampleCount) :=
    brightness_loop (List.length data) data 0 0%float 0 in
  if (0 <? sampleCount)%nat
  then (totalBrightness / PrimFloat.of_uint63 (Uint63.of_Z (Z.of_nat sampleCount)))%float
  else 0%float.

(** [initCanvas]: [videoWidth || 320] by [videoHeight || 240]. *)
Definition initCanvas (v : Video) : Canvas :=
  mkCanvas (if (videoWidth v =? 0)%nat then 320 else videoWidth v)
           (if (videoHeight v =? 0)%nat then 240 else videoHeight v).

Definition emit (present : bool) (c : Callback) : list Effect :=
  if present then [call c] else [].

Definition stop (st : State) : State := set_intervalId None st.

Definition disable (o : Options) (reason : string) (st : State)
  : State * list Effect :=
  (stop (set_isDisabled true st), emit (has_onDisabled o) (onDisabled reason)).

(** [h] is the handle [setInterval] returns, a positive integer. *)
Definition start (h : positive) (st : State) : State :=
  match intervalId st with
  | Some _ => st
  | None =>
      set_intervalId (Some h)
        (set_consecutiveOverruns 0 (set_isDisabled false st))
  end.

Definition cleanup (st : State) : State := set_canvas None (stop st).

Record Status : Type := mkStatus {
  st_isRunning : bool;
  st_isProcessing : bool;
  st_isDisabled : bool;
  st_consecutiveOverruns : nat
}.

Definition getStatus (st : State) : Status :=
  mkStatus (truthy_ref (intervalId st)) (isProcessing st) (isDisabled st)
           (consecutiveOverruns st).

(** The [catch] and [finally] blocks of [processFrame]. *)
Definition catch_finally (o : Options) (st : State) (error : Exn)
  : State * list Effect :=
  (set_isProcessing false st, emit (has_onError o) (onError error)).

(** How far the synchronous part of [processFrame] gets: the tick is
    dropped, the cycle ends in the [catch] block, or the cycle is suspended
    at [await detectFaces(frame)]. *)
Inductive Begun : Type :=
| Skipped
| Ended (st : State) (effects : list Effect)
| InFlight (st : State) (effects : list Effect).

Definition processFrame_begin (o : Options) (st : State) (fr : Frame) : Begun :=
  if isProcessing st || isDisabled st then Skipped
  else
    match video fr with
    | None => Skipped
    | Some v =>
        if (readyState v <? 2)%nat then Skipped
        else
          let st := set_isProcessing true st in
          (* captureFrame *)
          let st :=
            match canvas st with
            | None => set_canvas (Some (initCanvas v)) st
            | Some _ => st
            end in
          match drawn fr with
          | Throw e =>
              let '(st, eff) := catch_finally o st e in
              Ended st (drawImage :: eff)
          | Normal _ => InFlight st [drawImage; detectFaces]
          end
    end.

(** The part of [processFrame] after the [await], run on the state as it is
    when the detector answers. *)
Definition processFrame_resume (o : Options) (st : State) (fr : Frame)
  : State * list Effect :=
  match detected fr with
  | Throw e => catch_finally o st e
  | Normal faceDetection =>
      match canvas st with
      | None =>
          catch_finally o st
            (TypeError "Cannot read properties of null (reading 'width')")
      | Some _ =>
          match pixels fr with
          | Throw e =>
              let '(st, eff) := catch_finally o st e in
              (st, getImageData :: eff)
          | Normal data =>
              let brightness := calculateBrightness data in
              let processingTime := (endTime fr - startTime fr)%float in
              let report :=
                emit (has_onAnalysis o)
                  (onAnalysis
                     (Sample.mkSample (count faceDetection) None None
                        JUndefined brightness processingTime)) in
              if PrimFloat.ltb MAX_PROCESSING_MS processingTime then
                let st := set_consecutiveOverruns (S (consecutiveOverruns st)) st in
                if (MAX_CONSECUTIVE_OVERRUNS <=? consecutiveOverruns st)%nat then
                  let '(st, eff) := disable o "Processing time exceeded budget" st in
                  (set_isProcessing false st, getImageData :: eff)
                else
                  (set_isProcessing false st, getImageData :: report)
              else
                let st := set_consecutiveOverruns 0 st in
                (set_isProcessing false st, getImageData :: report)
          end
      end
  end.

(** One tick whose cycle runs to its end before anything else happens. *)
Definition processFrame (o : Options) (st : State) (fr : Frame)
  : State * list Effect :=
  match processFrame_begin o st fr with
  | Skipped => (st, [])
  | Ended st' eff => (st', eff)
  | InFlight st' eff =>
      let '(st'', eff') := processFrame_resume o st' fr in
      (st'', eff ++ eff')
  end.

(** The operations a caller or the timer can apply. *)
Inductive Op : Type :=
| OpStart (h : positive)
| OpStop
| OpCleanup
| OpTick (fr : Frame).

Definition step (o : Options) (st : State) (op : Op) : State * list Effect :=
  match op with
  | OpStart h => (start h st, [])
  | OpStop => (stop st, [])
  | OpCleanup => (cleanup st, [])
  | OpTick fr => processFrame o st fr
  end.

Fixpoint run (o : Options) (st : State) (ops : list Op) : State * list Effect :=
  match ops with
  | [] => (st, [])
  | op :: rest =>
      let '(st', eff) := step o st op in
      let '(st'', eff') := run o st' rest in
      (st'', eff ++ eff')
  end.

Definition is_start (op : Op) : bool :=
  match op with
  | OpStart _ => true
  | _ => false
  end.

(** The callbacks among the effects. *)
Fixpoint events (eff : list Effect) : list Callback :=
  match eff with
  | [] => []
  | call c :: rest => c :: events rest
  | _ :: rest => events rest
  end.

End FrameProcessor.

(* ------------------------------------------------------------------ *)
(** ** Reference notions and sample inputs used by the statements *)

Module Fixtures.

(** The planar distance between two present landmarks. *)
Definition euclid (p q : Landmark) : float :=
  let dx := (x p - x q)%float in
  let dy := (y p - y q)%float in
  Math_sqrt (dx * dx + dy * dy).

(** A [null]/[undefined] argument or an array shorter than 478. *)
Definition short_input (landmarks : option Face) : Prop :=
  match landmarks with
  | None => True
  | Some lm => List.length lm < 478
  end.

Definition point (px py : float) : Landmark := mkLandmark px py 0.

(** A full array: the listed indices hold the listed landmarks, every other
    index holds [fill]. *)
Definition face_of (entries : list (nat * Landmark)) (fill : option Landmark)
  : Face :=
  map (fun i =>
         match find (fun e => (fst e =? i)%nat) entries with
         | Some e => Some (snd e)
         | None => fill
         end)
      (seq 0 478).

(** Nose at the origin, right ear 40 away, left ear 100 away. *)
Definition face_ears_40_100 : Face :=
  face_of [(RotationEstimator.NOSE_TIP, point 0 0);
           (RotationEstimator.RIGHT_EAR, point (-40) 0);
           (RotationEstimator.LEFT_EAR, point 100 0)]
          (Some (point 0 0)).

(** All 478 landmarks on one point: both eyes have width 0 and height 0. *)
Definition face_collapsed : Face := face_of [] (Some (point 0 0)).

(** The two eyes and the landmarks [analyzeGaze] reads for each. *)
Inductive Eye : Type := RightEye | LeftEye.

Definition iris_of (lm : Face) (e : Eye) : option Landmark :=
  match e with
  | RightEye => at_index lm GazeEstimator.RIGHT_IRIS
  | LeftEye => at_index lm GazeEstimator.LEFT_IRIS
  end.

Definition top_of (lm : Face) (e : Eye) : option Landmark :=
  match e with
  | RightEye => at_index lm GazeEstimator.RIGHT_EYE_TOP
  | LeftEye => at_index lm GazeEstimator.LEFT_EYE_TOP
  end.

Definition bottom_of (lm : Face) (e : Eye) : option Landmark :=
  match e with
  | RightEye => at_index lm GazeEstimator.RIGHT_EYE_BOTTOM
  | LeftEye => at_index lm GazeEstimator.LEFT_EYE_BOTTOM
  end.

(** [Math.abs((outer?.x || 0) - (inner?.x || 0))] *)
Definition eyeWidth_of (lm : Face) (e : Eye) : float :=
  match e with
  | RightEye =>
      Math_abs (GazeEstimator.x_or_0 (at_index lm GazeEstimator.RIGHT_EYE_OUTER)
                - GazeEstimator.x_or_0 (at_index lm GazeEstimator.RIGHT_EYE_INNER))
  | LeftEye =>
      Math_abs (GazeEstimator.x_or_0 (at_index lm GazeEstimator.LEFT_EYE_OUTER)
                - GazeEstimator.x_or_0 (at_index lm GazeEstimator.LEFT_EYE_INNER))
  end.

(** [Math.abs(bottom.y - top.y)] of two present eyelid landmarks. *)
Definition eyeHeight (top bottom : Landmark) : float :=
  Math_abs (y bottom - y top).

(** The vertical reading [analyzeGaze] takes for one eye. *)
Definition vertical_reading (lm : Face) (e : Eye)
  : completion GazeEstimator.VertResult :=
  GazeEstimator.getVerticalOffset (iris_of lm e) (top_of lm e) (bottom_of lm e)
                                  (eyeWidth_of lm e).

(** The validity rule in the words of the specification: a valid reading has
    [eyeHeight / eyeWidth >= 0.02]. *)
Definition valid_only_above_ratio : Prop :=
  forall (lm : Face) (e : Eye) (v : GazeEstimator.VertResult)
         (top bottom : Landmark),
    478 <= List.length lm ->
    top_of lm e = Some top -> bottom_of lm e = Some bottom ->
    vertical_reading lm e = Normal v ->
    GazeEstimator.valid v = true ->
    PrimFloat.leb GazeEstimator.MIN_EYE_HEIGHT_RATIO
                  (eyeHeight top bottom / eyeWidth_of lm e) = true.

(** The combined direction string in the words of the specification. *)
Definition joined_direction (vertical horizontal : Label) : string :=
  match vertical, horizontal with
  | CENTER, CENTER => "CENTER"
  | CENTER, h => label_name h
  | v, CENTER => label_name v
  | v, h => (label_name v ++ "_" ++ label_name h)%string
  end.

(** The order [sort] puts flags in: their names compared as strings. *)
Definition flag_le (a b : FlagManager.Flag) : Prop :=
  String.leb (FlagManager.flag_name a) (FlagManager.flag_name b) = true.

(** The five flags that describe the face, as opposed to the lighting. *)
Definition status_flags : list FlagManager.Flag :=
  [FlagManager.MULTIPLE_FACES; FlagManager.FACE_MISSING;
   FlagManager.FACE_ROTATED; FlagManager.GAZE_AWAY; FlagManager.FACE_OK].

(** Six samples with the given face counts, everything else left free. *)
Definition face_counts (inputs : list (Z * Sample.Sample)) : list nat :=
  map (fun i => Sample.faceCount (snd i)) inputs.

Definition plain_sample (faceCount : nat) (brightness : float)
  : Sample.Sample :=
  Sample.mkSample faceCount (Some false) (Some false) (JString "CENTER")
                  brightness 12.

(** The tick is not dropped by the readiness test: the video element is
    there and has current data. *)
Definition video_ready (fr : FrameProcessor.Frame) : Prop :=
  exists v, FrameProcessor.video fr = Some v /\ 2 <= FrameProcessor.readyState v.

(** A cycle that runs to the timing check, and its elapsed time. *)
Definition completes (fr : FrameProcessor.Frame) : Prop :=
  video_ready fr /\
  FrameProcessor.drawn fr = Normal tt /\
  (exists d, FrameProcessor.detected fr = Normal d) /\
  (exists data, FrameProcessor.pixels fr = Normal data).

Definition elapsed (fr : FrameProcessor.Frame) : float :=
  (FrameProcessor.endTime fr - FrameProcessor.startTime fr)%float.

Definition over_budget (fr : FrameProcessor.Frame) : Prop :=
  completes fr /\
  PrimFloat.ltb FrameProcessor.MAX_PROCESSING_MS (elapsed fr) = true.

(** A tick that is dropped for an unready video, or whose cycle is cut short
    by an exception. *)
Definition not_completed (fr : FrameProcessor.Frame) : Prop :=
  ~ video_ready fr \/
  (exists e, FrameProcessor.drawn fr = Throw e) \/
  (exists e, FrameProcessor.detected fr = Throw e) \/
  (exists e, FrameProcessor.pixels fr = Throw e).

(** Capture or detection raises [e] in a cycle that was started. *)
Definition hard_failure (fr : FrameProcessor.Frame) (e : Exn) : Prop :=
  video_ready fr /\
  (FrameProcessor.drawn fr = Throw e \/
   (FrameProcessor.drawn fr = Normal tt /\ FrameProcessor.detected fr = Throw e)).

(** The sample of the specification: the three geometry fields are there and
    come from the estimators run on landmarks the detector returned in this
    cycle (on no landmarks when it returned no face). *)
Definition carries_geometry (d : FrameProcessor.Detection) (s : Sample.Sample)
  : Prop :=
  exists landmarks rot gz,
    (landmarks = None \/
     exists lm, landmarks = Some lm /\ In lm (FrameProcessor.faces d)) /\
    RotationEstimator.analyzeRotation landmarks = Normal rot /\
    GazeEstimator.analyzeGaze landmarks = Normal gz /\
    Sample.isRotated s = Some (RotationEstimator.isRotated rot) /\
    Sample.isLookingAway s = Some (GazeEstimator.isLookingAway gz) /\
    Sample.gazeDirection s = JString (GazeEstimator.gazeDirection gz).

Definition analysis_carries_geometry : Prop :=
  forall o st fr s,
    In (FrameProcessor.call (FrameProcessor.onAnalysis s))
       (snd (FrameProcessor.processFrame o st fr)) ->
    exists d, FrameProcessor.detected fr = Normal d /\ carries_geometry d s.

Definition all_callbacks : FrameProcessor.Options :=
  FrameProcessor.mkOptions true true true.

(** A 320 by 240 video with current data, one turned face found, two white
    pixels read back, the cycle taking [ms] milliseconds. *)
Definition frame_taking (ms : float) : FrameProcessor.Frame :=
  FrameProcessor.mkFrame
    (Some (FrameProcessor.mkVideo 4 320 240))
    1000 (Normal tt)
    (Normal (FrameProcessor.mkDetection [face_ears_40_100] 1))
    (Normal [Byte.xff; Byte.xff; Byte.xff; Byte.xff;
             Byte.xff; Byte.xff; Byte.xff; Byte.xff])
    (1000 + ms).

(** The same tick with the detector rejecting. *)
Definition frame_detector_fails : FrameProcessor.Frame :=
  FrameProcessor.mkFrame
    (Some (FrameProcessor.mkVideo 4 320 240))
    1000 (Normal tt) (Throw (Rejected "model failed to load"))
    (Normal []) 1030.

End Fixtures.

(* ------------------------------------------------------------------ *)
(** ** src/lib/flagManager.js (the variant without gaze tracking)

    The second copy of the module keeps the face count in the state instead
    of a gaze direction, classifies by face count and brightness only, and
    compares flag arrays with the same [arraysEqual]. *)

Module FlagManagerBasic.

Record EntryDetails : Type := mkEntryDetails {
  d_faceCount : nat;
  d_brightness : float
}.

Record HistoryEntry : Type := mkEntry {
  timestamp : Z;
  flags : list FlagManager.Flag;
  entry_details : EntryDetails
}.

Record FlagState : Type := mkFlagState {
  currentFlags : list FlagManager.Flag;
  faceCount : nat;
  consecutiveMissing : nat;
  lastUpdate : option Z;
  history : list HistoryEntry
}.

Definition createInitialState : FlagState :=
  mkFlagState [] 0 0 None [].

Definition processAnalysis (now : Z) (state : FlagState)
           (analysis : Sample.Sample) : FlagState :=
  let faceCount_ := Sample.faceCount analysis in
  let brightness := Sample.brightness analysis in
  let '(newFlags, consecutiveMissing_) :=
    if (1 <? faceCount_)%nat then
      ([FlagManager.MULTIPLE_FACES], 0%nat)
    else if (faceCount_ =? 0)%nat then
      let missing := S (consecutiveMissing state) in
      (if (FlagManager.FACE_MISSING_THRESHOLD <=? missing)%nat
       then [FlagManager.FACE_MISSING] else [],
       missing)
    else ([FlagManager.FACE_OK], 0%nat) in
  let newFlags :=
    if PrimFloat.ltb brightness FlagManager.LOW_LIGHT_THRESHOLD
    then newFlags ++ [FlagManager.LOW_LIGHT] else newFlags in
  let flagsChanged :=
    negb (FlagManager.arraysEqual (currentFlags state) newFlags) in
  let history_ :=
    if flagsChanged then
      FlagManager.slice_last 19 (history state)
      ++ [mkEntry now newFlags
            (mkEntryDetails faceCount_ (Math_round brightness))]
    else history state in
  mkFlagState newFlags faceCount_ consecutiveMissing_ (Some now) history_.

Fixpoint feed (state : FlagState) (inputs : list (Z * Sample.Sample))
  : FlagState :=
  match inputs with
  | [] => state
  | (now, a) :: rest => feed (processAnalysis now state a) rest
  end.

End FlagManagerBasic.

(* ------------------------------------------------------------------ *)
(** ** faceAnalyzer.js (src/unnamed/part_000 and part_001)

    The two copies differ in the detector class and in what [detectFaces]
    returns; the lazy singleton is the same.  A construction is the async
    function started by [initializeDetector]: it awaits the WASM fileset, then
    the detector, and then stores the detector in [detectorInstance]; when
    either await rejects, its [catch] block sets [initPromise] to null.  The
    constructions under way are kept beside the two module variables, each
    under the identity of its promise, and the environment settles them one
    step at a time. *)

Module FaceAnalyzer.

(** A detector object and a promise, by identity. *)
Definition Handle : Type := nat.
Definition PromiseId : Type := nat.

(** Where a construction is waiting. *)
Inductive Stage : Type :=
| AwaitingFileset
| AwaitingDetector.

Record State : Type := mkState {
  detectorInstance : option Handle;
  initPromise : option PromiseId;
  constructions : list (PromiseId * Stage);
  nextPromise : PromiseId
}.

Definition initial : State := mkState None None [] 0.

Inductive Effect : Type :=
| forVisionTasks
| createFromOptions
| close (h : Handle).

Definition stage_eqb (a b : Stage) : bool :=
  match a, b with
  | AwaitingFileset, AwaitingFileset => true
  | AwaitingDetector, AwaitingDetector => true
  | _, _ => false
  end.

Definition waiting (p : PromiseId) (s : Stage) (st : State) : bool :=
  existsb (fun c => (fst c =? p)%nat && stage_eqb (snd c) s) (constructions st).

Definition without (p : PromiseId) (l : list (PromiseId * Stage))
  : list (PromiseId * Stage) :=
  filter (fun c => negb (fst c =? p)%nat) l.

(** [initializeDetector()], up to its first await. *)
Definition initializeDetector (st : State) : State * list Effect :=
  match detectorInstance st with
  | Some _ => (st, [])
  | None =>
      match initPromise st with
      | Some _ => (st, [])
      | None =>
          let p := nextPromise st in
          (mkState None (Some p) (constructions st ++ [(p, AwaitingFileset)])
                   (S p),
           [forVisionTasks])
      end
  end.

(** What the environment and the callers do. *)
Inductive Op : Type :=
| Call                                   (* [detectFaces(image)] is called *)
| FilesetResolved (p : PromiseId)
| FilesetRejected (p : PromiseId)
| DetectorResolved (p : PromiseId) (h : Handle)
| DetectorRejected (p : PromiseId)
| Cleanup.

Definition cleanup (st : State) : State * list Effect :=
  match detectorInstance st with
  | Some h =>
      (mkState None None (constructions st) (nextPromise st), [close h])
  | None => (st, [])
  end.

Definition step (st : State) (op : Op) : State * list Effect :=
  match op with
  | Call => initializeDetector st
  | FilesetResolved p =>
      if waiting p AwaitingFileset st then
        (mkState (detectorInstance st) (initPromise st)
                 (without p (constructions st) ++ [(p, AwaitingDetector)])
                 (nextPromise st),
         [createFromOptions])
      else (st, [])
  | FilesetRejected p =>
      if waiting p AwaitingFileset st then
        (mkState (detectorInstance st) None (without p (constructions st))
                 (nextPromise st), [])
      else (st, [])
  | DetectorResolved p h =>
      if waiting p AwaitingDetector st then
        (mkState (Some h) (initPromise st) (without p (constructions st))
                 (nextPromise st), [])
      else (st, [])
  | DetectorRejected p =>
      if waiting p AwaitingDetector st then
        (mkState (detectorInstance st) None (without p (constructions st))
                 (nextPromise st), [])
      else (st, [])
  | Cleanup => cleanup st
  end.

Fixpoint run (st : State) (ops : list Op) : State * list Effect :=
  match ops with
  | [] => (st, [])
  | op :: rest =>
      let '(st', eff) := step st op in
      let '(st'', eff') := run st' rest in
      (st'', eff ++ eff')
  end.

(** [result.detections?.length || 0] and [result.faceLandmarks?.length || 0]:
    the number of entries, 0 when the array is missing. *)
Definition count_of {A : Type} (found : option (list A)) : nat :=
  match found with
  | Some l => List.length l
  | None => 0
  end.

End FaceAnalyzer.

(* ------------------------------------------------------------------ *)
(** ** The scheduler with its cycles in flight

    [processFrame] is suspended at [await detectFaces(frame)]; until the
    detector answers, the timer and the caller can run the other functions.
    The cycles that are suspended are kept beside the closure variables, and
    the environment resumes them one at a time. *)

Module Interleaved.

Record System : Type := mkSystem {
  vars : FrameProcessor.State;
  inFlight : list FrameProcessor.Frame
}.

Definition initial : System := mkSystem FrameProcessor.initial [].

Inductive Op : Type :=
| Start (h : positive)
| Stop
| Cleanup
| Tick (fr : FrameProcessor.Frame)     (* the timer calls [processFrame] *)
| Settle (i : nat).                    (* the detector answers cycle [i] *)

Fixpoint remove_nth {A : Type} (i : nat) (l : list A) : list A :=
  match l, i with
  | [], _ => []
  | _ :: rest, O => rest
  | a :: rest, S j => a :: remove_nth j rest
  end.

Definition step (o : FrameProcessor.Options) (sys : System) (op : Op)
  : System * list FrameProcessor.Effect :=
  match op with
  | Start h => (mkSystem (FrameProcessor.start h (vars sys)) (inFlight sys), [])
  | Stop => (mkSystem (FrameProcessor.stop (vars sys)) (inFlight sys), [])
  | Cleanup => (mkSystem (FrameProcessor.cleanup (vars sys)) (inFlight sys), [])
  | Tick fr =>
      match FrameProcessor.processFrame_begin o (vars sys) fr with
      | FrameProcessor.Skipped => (sys, [])
      | FrameProcessor.Ended st eff => (mkSystem st (inFlight sys), eff)
      | FrameProcessor.InFlight st eff =>
          (mkSystem st (inFlight sys ++ [fr]), eff)
      end
  | Settle i =>
      match nth_error (inFlight sys) i with
      | None => (sys, [])
      | Some fr =>
          let '(st, eff) := FrameProcessor.processFrame_resume o (vars sys) fr in
          (mkSystem st (remove_nth i (inFlight sys)), eff)
      end
  end.

Fixpoint run (o : FrameProcessor.Options) (sys : System) (ops : list Op)
  : System * list FrameProcessor.Effect :=
  match ops with
  | [] => (sys, [])
  | op :: rest =>
      let '(sys', eff) := step o sys op in
      let '(sys'', eff') := run o sys' rest in
      (sys'', eff ++ eff')
  end.

End Interleaved.

(* ------------------------------------------------------------------ *)
(** ** Further notions used by the statements *)

Module Notions.

(** The bytes [calculateBrightness] reads: red, green and blue of every
    tenth pixel. *)
Definition sampled (k : nat) : Prop := k mod 40 < 3.

(** The number of zero face counts at the end of a sequence of counts. *)
Fixpoint leading_zeros (counts : list nat) : nat :=
  match counts with
  | O :: rest => S (leading_zeros rest)
  | _ => 0
  end.

Definition trailing_zeros (counts : list nat) : nat :=
  leading_zeros (rev counts).

(** The strings [analyzeGaze] can return as the combined direction of a full
    array. *)
Definition directions : list string :=
  ["CENTER"; "LEFT"; "RIGHT"; "UP"; "DOWN";
   "UP_LEFT"; "UP_RIGHT"; "DOWN_LEFT"; "DOWN_RIGHT"]%string.

(** A sample as the scheduler builds it. *)
Definition scheduler_sample (faceCount : nat) (brightness processingTime : float)
  : Sample.Sample :=
  Sample.mkSample faceCount None None JUndefined brightness processingTime.

(** The flags of a history, oldest first, in either variant. *)
Definition history_flags (h : list FlagManager.HistoryEntry)
  : list (Z * list FlagManager.Flag) :=
  map (fun e => (FlagManager.timestamp e, FlagManager.flags e)) h.

Definition history_flags_basic (h : list FlagManagerBasic.HistoryEntry)
  : list (Z * list FlagManager.Flag) :=
  map (fun e => (FlagManagerBasic.timestamp e, FlagManagerBasic.flags e)) h.

(** The flag arrays [processAnalysis] builds: at most one status flag, then
    LOW_LIGHT or not. *)
Definition canonical_flags : list (list FlagManager.Flag) :=
  flat_map (fun status => [status; status ++ [FlagManager.LOW_LIGHT]])
           ([] :: map (fun f => [f]) Fixtures.status_flags).

Definition flag_eq_dec (a b : FlagManager.Flag) : {a = b} + {a <> b}.
Proof. decide equality. Defined.

(** A tick that [processFrame] drops at its two guards. *)
Definition dropped (st : FrameProcessor.State) (fr : FrameProcessor.Frame)
  : Prop :=
  FrameProcessor.isProcessing st = true \/
  FrameProcessor.isDisabled st = true \/
  ~ Fixtures.video_ready fr.

(** What holds of the scheduler between any two calls. *)
Definition consistent (sys : Interleaved.System) : Prop :=
  let st := Interleaved.vars sys in
  List.length (Interleaved.inFlight sys) <= 1 /\
  (FrameProcessor.isProcessing st = true <-> Interleaved.inFlight sys <> []) /\
  (FrameProcessor.isDisabled st = true ->
   FrameProcessor.intervalId st = None /\ Interleaved.inFlight sys = [] /\
   FrameProcessor.consecutiveOverruns st = 3) /\
  (FrameProcessor.isDisabled st = false ->
   FrameProcessor.consecutiveOverruns st < 3).


(** What holds of the detector singleton between any two calls: at most one
    construction is under way, it is the one [initPromise] holds, and there
    is no detector yet while it runs; a detector that is there came with a
    promise. *)
Definition single_flight (st : FaceAnalyzer.State) : Prop :=
  (FaceAnalyzer.constructions st = [] \/
   exists p s,
     FaceAnalyzer.constructions st = [(p, s)] /\
     FaceAnalyzer.initPromise st = Some p /\
     FaceAnalyzer.detectorInstance st = None) /\
  (FaceAnalyzer.detectorInstance st <> None ->
   FaceAnalyzer.initPromise st <> None).

(** The newest entry of a history. *)
Definition newest {A : Type} (h : list A) : option A :=
  nth_error h (List.length h - 1).

End Notions.

(* ================================================================== *)
(** * Properties *)

(* ------------------------------------------------------------------ *)
(** ** Comparisons of binary64 numbers *)

Section FloatOrder.

Lemma SFcompare_antisym (a b : spec_float) :
  SFcompare b a = option_map CompOpp (SFcompare a b).
Proof.
  destruct a as [sa | sa | | sa ma ea], b as [sb | sb | | sb mb eb];
    simpl; try reflexivity;
    try (destruct sa; reflexivity); try (destruct sb; reflexivity);
    try (destruct sa, sb; reflexivity).
  destruct sa, sb; simpl; try reflexivity;
    rewrite (Z.compare_antisym eb ea);
    destruct (eb ?= ea)%Z; simpl; try reflexivity;
    rewrite (Pos.compare_cont_antisym ma mb Eq); reflexivity.
Qed.

Lemma is_nan_spec (x : float) :
  PrimFloat.is_nan x = false -> Prim2SF x <> S754_nan.
Proof.
  unfold PrimFloat.is_nan. rewrite FloatAxioms.eqb_spec. intros H E.
  rewrite E in H. discriminate H.
Qed.

Lemma SFcompare_defined (a b : spec_float) :
  a <> S754_nan -> b <> S754_nan -> exists c, SFcompare a b = Some c.
Proof.
  intros Ha Hb.
  destruct a, b; simpl; try congruence; eexists; reflexivity.
Qed.

(** On numbers, "not below" and "at least" are the same test. *)
Lemma not_ltb_leb (x y : float) :
  PrimFloat.is_nan x = false -> PrimFloat.is_nan y = false ->
  PrimFloat.ltb x y = false -> PrimFloat.leb y x = true.
Proof.
  intros Hx Hy. rewrite FloatAxioms.ltb_spec, FloatAxioms.leb_spec. unfold SFltb, SFleb.
  rewrite (SFcompare_antisym (Prim2SF x) (Prim2SF y)).
  destruct (SFcompare_defined _ _ (is_nan_spec _ Hx) (is_nan_spec _ Hy))
    as [c Hc].
  rewrite Hc. destruct c; simpl; congruence.
Qed.

Lemma leb_not_ltb (x y : float) :
  PrimFloat.leb y x = true -> PrimFloat.ltb x y = false.
Proof.
  rewrite FloatAxioms.ltb_spec, FloatAxioms.leb_spec. unfold SFltb, SFleb.
  rewrite (SFcompare_antisym (Prim2SF x) (Prim2SF y)).
  destruct (SFcompare (Prim2SF x) (Prim2SF y)) as [[ | | ] | ];
    simpl; congruence.
Qed.

(** An order between two finite positive numbers, read off their
    exponents and mantissas. *)
Lemma SFcompare_pos_lt (m1 m2 : positive) (e1 e2 : Z) :
  SFcompare (S754_finite false m1 e1) (S754_finite false m2 e2) = Some Lt ->
  (e1 < e2)%Z \/ (e1 = e2 /\ (Z.pos m1 < Z.pos m2)%Z).
Proof.
  simpl. destruct (Z.compare_spec e1 e2) as [E | L | G].
  - intros H. right. split; [exact E|].
    injection H as H. exact H.
  - intros _. left. exact L.
  - discriminate.
Qed.

(** No number is below the yaw threshold and above its inverse at once. *)
Lemma yaw_thresholds_apart (r : float) :
  PrimFloat.ltb r RotationEstimator.YAW_THRESHOLD = true ->
  PrimFloat.ltb (1 / RotationEstimator.YAW_THRESHOLD) r = true -> False.
Proof.
  rewrite (FloatAxioms.ltb_spec r), (FloatAxioms.ltb_spec _ r).
  unfold SFltb. generalize (Prim2SF r) as sr.
  replace (Prim2SF RotationEstimator.YAW_THRESHOLD)
    with (S754_finite false 5404319552844595 (-53)) by (vm_compute; reflexivity).
  replace (Prim2SF (1 / RotationEstimator.YAW_THRESHOLD))
    with (S754_finite false 7505999378950827 (-52)) by (vm_compute; reflexivity).
  intros sr. destruct sr as [s | s | | s m e].
  - simpl. intros _ H. discriminate H.
  - destruct s; simpl; intros H1 H2; discriminate.
  - simpl. intros H; discriminate H.
  - destruct s.
    + simpl. intros _ H. discriminate H.
    + intros H1 H2.
      destruct (SFcompare (S754_finite false m e)
                  (S754_finite false 5404319552844595 (-53))) as [[ | | ] | ] eqn:C1;
        try discriminate H1.
      destruct (SFcompare (S754_finite false 7505999378950827 (-52))
                  (S754_finite false m e)) as [[ | | ] | ] eqn:C2;
        try discriminate H2.
      apply SFcompare_pos_lt in C1. apply SFcompare_pos_lt in C2. lia.
Qed.

End FloatOrder.

(* ------------------------------------------------------------------ *)
(** ** Head rotation *)

Section Rotation.

Import RotationEstimator Fixtures.

Lemma distance_present (p q : Landmark) :
  distance (Some p) (Some q) = Normal (euclid p q).
Proof. reflexivity. Qed.

Lemma distance_total (p q : option Landmark) :
  exists d, distance p q = Normal d.
Proof.
  destruct p as [p|], q as [q|]; simpl; eexists; reflexivity.
Qed.

Lemma estimateYaw_total (lm : Face) : exists l, estimateYaw lm = Normal l.
Proof.
  unfold estimateYaw.
  destruct (at_index lm NOSE_TIP), (at_index lm LEFT_EAR),
    (at_index lm RIGHT_EAR); simpl; try (eexists; reflexivity).
  repeat match goal with
         | |- context [if ?b then _ else _] => destruct b
         end; eexists; reflexivity.
Qed.

Lemma estimateRoll_total (lm : Face) : exists l, estimateRoll lm = Normal l.
Proof.
  unfold estimateRoll.
  destruct (at_index lm LEFT_EYE_OUTER), (at_index lm RIGHT_EYE_OUTER);
    simpl; try (eexists; reflexivity).
  repeat match goal with
         | |- context [if ?b then _ else _] => destruct b
         end; eexists; reflexivity.
Qed.

Lemma analyzeRotation_total (landmarks : option Face) :
  exists r, analyzeRotation landmarks = Normal r.
Proof.
  destruct landmarks as [lm|]; simpl; [|eexists; reflexivity].
  destruct (List.length lm <? 478)%nat; [eexists; reflexivity|].
  destruct (estimateYaw_total lm) as [yw ->].
  destruct (estimateRoll_total lm) as [rl ->].
  simpl. eexists; reflexivity.
Qed.

(** On a full array the result is built from the two estimates. *)
Lemma analyzeRotation_full (lm : Face) :
  478 <= List.length lm ->
  exists yw rl,
    estimateYaw lm = Normal yw /\ estimateRoll lm = Normal rl /\
    analyzeRotation (Some lm)
    = Normal (mkRotation yw rl (negb (label_eqb yw CENTER))).
Proof.
  intros Hlen. unfold analyzeRotation.
  destruct (Nat.ltb_spec (List.length lm) 478) as [Hlt|_]; [lia|].
  destruct (estimateYaw_total lm) as [yw Hy].
  destruct (estimateRoll_total lm) as [rl Hr].
  exists yw, rl. rewrite Hy, Hr. simpl. auto.
Qed.

Lemma estimateYaw_present (lm : Face) (nose leftEar rightEar : Landmark) :
  at_index lm NOSE_TIP = Some nose ->
  at_index lm LEFT_EAR = Some leftEar ->
  at_index lm RIGHT_EAR = Some rightEar ->
  estimateYaw lm =
  Normal (if PrimFloat.eqb (euclid nose leftEar) 0
             || PrimFloat.eqb (euclid nose rightEar) 0
          then CENTER
          else if PrimFloat.ltb (euclid nose rightEar / euclid nose leftEar)
                                YAW_THRESHOLD
               then LEFT
               else if PrimFloat.ltb (1 / YAW_THRESHOLD)
                         (euclid nose rightEar / euclid nose leftEar)
                    then RIGHT else CENTER).
Proof.
  intros Hn Hl Hr. unfold estimateYaw. rewrite Hn, Hl, Hr.
  cbn [truthy_ref negb orb]. rewrite !distance_present. cbn [bind].
  repeat match goal with
         | |- context [if ?b then _ else _] => destruct b
         end; reflexivity.
Qed.

Lemma estimateYaw_missing (lm : Face) :
  at_index lm NOSE_TIP = None \/ at_index lm LEFT_EAR = None
  \/ at_index lm RIGHT_EAR = None ->
  estimateYaw lm = Normal CENTER.
Proof.
  unfold estimateYaw.
  destruct (at_index lm NOSE_TIP), (at_index lm LEFT_EAR),
    (at_index lm RIGHT_EAR); simpl; intros [H | [H | H]];
    try discriminate H; reflexivity.
Qed.

Lemma label_eqb_CENTER (l : Label) : label_eqb l CENTER = true <-> l = CENTER.
Proof. destruct l; vm_compute; split; congruence. Qed.

(** C6.  On a full array (478 landmarks or more) the yaw is read off
    [ratio = distance(nose, rightEar) / distance(nose, leftEar)] with strict
    thresholds: below 0.6 it is LEFT, above 1/0.6 it is RIGHT, otherwise
    CENTER, so a ratio of exactly 0.6 is CENTER, and distances 40 (right) and
    100 (left) give ratio 0.4 and LEFT.  A missing nose or ear landmark, or a
    distance equal to zero, gives CENTER.  [isRotated] holds exactly when the
    yaw is not CENTER. *)
Theorem yaw_classification (lm : Face) :
  478 <= List.length lm ->
  exists rot,
    analyzeRotation (Some lm) = Normal rot /\
    (isRotated rot = true <-> yaw rot <> CENTER) /\
    (at_index lm NOSE_TIP = None \/ at_index lm LEFT_EAR = None
     \/ at_index lm RIGHT_EAR = None -> yaw rot = CENTER) /\
    (forall nose leftEar rightEar,
        at_index lm NOSE_TIP = Some nose ->
        at_index lm LEFT_EAR = Some leftEar ->
        at_index lm RIGHT_EAR = Some rightEar ->
        let leftEarDist := euclid nose leftEar in
        let rightEarDist := euclid nose rightEar in
        let ratio := (rightEarDist / leftEarDist)%float in
        (PrimFloat.eqb leftEarDist 0 = true \/ PrimFloat.eqb rightEarDist 0 = true ->
         yaw rot = CENTER) /\
        (PrimFloat.eqb leftEarDist 0 = false ->
         PrimFloat.eqb rightEarDist 0 = false ->
         (PrimFloat.ltb ratio 0.6 = true -> yaw rot = LEFT) /\
         (PrimFloat.ltb (1 / 0.6) ratio = true -> yaw rot = RIGHT) /\
         (PrimFloat.ltb ratio 0.6 = false ->
          PrimFloat.ltb (1 / 0.6) ratio = false -> yaw rot = CENTER) /\
         (ratio = 0.6%float -> yaw rot = CENTER) /\
         (rightEarDist = 40%float -> leftEarDist = 100%float ->
          ratio = 0.4%float /\ yaw rot = LEFT))).
Proof.
  intros Hlen.
  destruct (analyzeRotation_full lm Hlen) as (yw & rl & Hy & Hr & Hrot).
  eexists. split; [exact Hrot|]. cbn [yaw isRotated].
  split.
  { rewrite negb_true_iff. rewrite <- (label_eqb_CENTER yw).
    destruct (label_eqb yw CENTER); split; congruence. }
  split.
  { intros Hm. rewrite (estimateYaw_missing lm Hm) in Hy. congruence. }
  intros nose leftEar rightEar Hn Hl Hre.
  rewrite (estimateYaw_present lm nose leftEar rightEar Hn Hl Hre) in Hy.
  cbv zeta.
  set (leftEarDist := euclid nose leftEar) in *.
  set (rightEarDist := euclid nose rightEar) in *.
  set (ratio := (rightEarDist / leftEarDist)%float) in *.
  change YAW_THRESHOLD with 0.6%float in Hy.
  split.
  { intros [H | H]; rewrite H in Hy; rewrite ?orb_true_r in Hy;
      cbn [orb] in Hy; congruence. }
  intros Hl0 Hr0. rewrite Hl0, Hr0 in Hy. cbn [orb] in Hy.
  assert (Hexcl : PrimFloat.ltb ratio 0.6 = true ->
                  PrimFloat.ltb (1 / 0.6) ratio = true -> False)
    by exact (yaw_thresholds_apart ratio).
  repeat split.
  - intros H. rewrite H in Hy. congruence.
  - intros H. destruct (PrimFloat.ltb ratio 0.6) eqn:E.
    + exfalso. exact (Hexcl eq_refl H).
    + rewrite H in Hy. congruence.
  - intros H1 H2. rewrite H1, H2 in Hy. congruence.
  - intros E. rewrite E in Hy.
    replace (PrimFloat.ltb 0.6 0.6) with false in Hy by (vm_compute; reflexivity).
    replace (PrimFloat.ltb (1 / 0.6) 0.6) with false in Hy
      by (vm_compute; reflexivity).
    congruence.
  - subst ratio. rewrite H, H0. vm_compute. reflexivity.
  - subst ratio. rewrite H, H0 in Hy.
    replace (PrimFloat.ltb (40 / 100) 0.6) with true in Hy
      by (vm_compute; reflexivity).
    congruence.
Qed.

Lemma yaw_classification_witness :
  478 <= List.length face_ears_40_100 /\
  exists rot,
    analyzeRotation (Some face_ears_40_100) = Normal rot /\ yaw rot = LEFT.
Proof.
  assert (Hlen : 478 <= List.length face_ears_40_100)
    by (vm_compute; apply le_n).
  split; [exact Hlen|].
  destruct (yaw_classification face_ears_40_100 Hlen)
    as (rot & Hrot & _ & _ & Hcls).
  exists rot. split; [exact Hrot|].
  destruct (Hcls (point 0 0) (point 100 0) (point (-40) 0)
                 eq_refl eq_refl eq_refl) as [_ Hnz].
  destruct (Hnz eq_refl eq_refl) as (_ & _ & _ & _ & H40).
  exact (proj2 (H40 eq_refl eq_refl)).
Defined.

End Rotation.

(* ------------------------------------------------------------------ *)
(** ** Eye gaze *)

Section Gaze.

Import GazeEstimator Fixtures.

Lemma getHorizontalOffset_total (iris inner outer : option Landmark) :
  exists h, getHorizontalOffset iris inner outer = Normal h.
Proof.
  destruct iris, inner, outer; simpl; eexists; reflexivity.
Qed.

Lemma getVerticalOffset_total (iris top bottom : option Landmark) (w : float) :
  exists v, getVerticalOffset iris top bottom w = Normal v.
Proof.
  unfold getVerticalOffset.
  destruct iris, top, bottom; cbn [truthy_ref negb orb prop_y bind];
    try (eexists; reflexivity).
  match goal with
  | |- context [if ?b then _ else _] => destruct b
  end; eexists; reflexivity.
Qed.

Lemma analyzeGaze_total (landmarks : option Face) :
  exists g, analyzeGaze landmarks = Normal g.
Proof.
  destruct landmarks as [lm|]; cbn [analyzeGaze]; [|eexists; reflexivity].
  destruct (List.length lm <? 478)%nat; [eexists; reflexivity|].
  cbv zeta.
  match goal with
  | |- context [bind (getHorizontalOffset ?a ?b ?c) _] =>
      destruct (getHorizontalOffset_total a b c) as [rh ->]; cbn [bind]
  end.
  match goal with
  | |- context [bind (getHorizontalOffset ?a ?b ?c) _] =>
      destruct (getHorizontalOffset_total a b c) as [lh ->]; cbn [bind]
  end.
  match goal with
  | |- context [bind (getVerticalOffset ?a ?b ?c ?w) _] =>
      destruct (getVerticalOffset_total a b c w) as [rv ->]; cbn [bind]
  end.
  match goal with
  | |- context [bind (getVerticalOffset ?a ?b ?c ?w) _] =>
      destruct (getVerticalOffset_total a b c w) as [lv ->]; cbn [bind]
  end.
  eexists; reflexivity.
Qed.

(** A valid reading comes from present landmarks that passed the opening
    test, which is skipped when the width is not positive. *)
Lemma getVerticalOffset_valid (iris top bottom : option Landmark) (w : float)
      (v : VertResult) :
  getVerticalOffset iris top bottom w = Normal v ->
  valid v = true ->
  exists i t b,
    iris = Some i /\ top = Some t /\ bottom = Some b /\
    (PrimFloat.ltb 0 w && PrimFloat.ltb (eyeHeight t b / w) MIN_EYE_HEIGHT_RATIO
     = false).
Proof.
  unfold getVerticalOffset.
  destruct iris as [i|], top as [t|], bottom as [b|];
    cbn [truthy_ref negb orb prop_y bind];
    try (intros H Hv; injection H as <-; discriminate Hv).
  fold (eyeHeight t b).
  destruct (PrimFloat.ltb 0 w && PrimFloat.ltb (eyeHeight t b / w) MIN_EYE_HEIGHT_RATIO)
    eqn:E.
  - intros H Hv; injection H as <-; discriminate Hv.
  - intros _ _. exists i, t, b. auto.
Qed.

(** No number is below [-0.25] and above [0.25] at once. *)
Lemma vertical_thresholds_apart (a : float) :
  PrimFloat.ltb a (- VERTICAL_THRESHOLD) = true ->
  PrimFloat.ltb VERTICAL_THRESHOLD a = true -> False.
Proof.
  rewrite (FloatAxioms.ltb_spec a), (FloatAxioms.ltb_spec _ a).
  unfold SFltb. generalize (Prim2SF a) as sa.
  replace (Prim2SF (- VERTICAL_THRESHOLD))
    with (S754_finite true 4503599627370496 (-54)) by (vm_compute; reflexivity).
  replace (Prim2SF VERTICAL_THRESHOLD)
    with (S754_finite false 4503599627370496 (-54)) by (vm_compute; reflexivity).
  intros sa. destruct sa as [s | s | | s m e]; try destruct s;
    cbn [SFcompare]; intros H1 H2; discriminate.
Qed.

(** C7.  For a [null]/[undefined] argument and for every array shorter than
    478, [analyzeRotation] returns yaw UNKNOWN, roll UNKNOWN, not rotated, and
    [analyzeGaze] returns UNKNOWN for both directions and for the combined
    one, not looking away, confidence 0; and on no input at all does either
    function raise. *)
Theorem estimators_neutral_on_short_input (landmarks : option Face) :
  (exists r, RotationEstimator.analyzeRotation landmarks = Normal r) /\
  (exists g, analyzeGaze landmarks = Normal g) /\
  (short_input landmarks ->
   RotationEstimator.analyzeRotation landmarks
   = Normal (RotationEstimator.mkRotation UNKNOWN UNKNOWN false) /\
   analyzeGaze landmarks
   = Normal (mkGaze UNKNOWN UNKNOWN "UNKNOWN" false 0 None)).
Proof.
  split; [apply analyzeRotation_total|].
  split; [apply analyzeGaze_total|].
  destruct landmarks as [lm|]; cbn [short_input]; intros Hs.
  - unfold RotationEstimator.analyzeRotation, analyzeGaze.
    destruct (Nat.ltb_spec (List.length lm) 478) as [_|Hge]; [|lia].
    split; reflexivity.
  - split; reflexivity.
Qed.

Lemma estimators_neutral_on_short_input_witness :
  short_input (Some (repeat (Some (point 0 0)) 477)) /\
  RotationEstimator.analyzeRotation (Some (repeat (Some (point 0 0)) 477))
  = Normal (RotationEstimator.mkRotation UNKNOWN UNKNOWN false) /\
  analyzeGaze (Some (repeat (Some (point 0 0)) 477))
  = Normal (mkGaze UNKNOWN UNKNOWN "UNKNOWN" false 0 None).
Proof.
  assert (Hs : short_input (Some (repeat (Some (point 0 0)) 477)))
    by (vm_compute; apply le_n).
  split; [exact Hs|].
  exact (proj2 (proj2 (estimators_neutral_on_short_input _)) Hs).
Defined.

(** C8 as the specification words its first part: on the array whose
    landmarks all coincide, the right eye has width 0 and height 0, its
    reading is valid, and [0 / 0] is not at least 0.02. *)
Lemma valid_only_above_ratio_counterexample : ~ valid_only_above_ratio.
Proof.
  intros H.
  specialize (H face_collapsed RightEye (mkVert 0 true) (point 0 0) (point 0 0)).
  assert (Hlen : 478 <= List.length face_collapsed) by (vm_compute; apply le_n).
  specialize (H Hlen eq_refl eq_refl eq_refl eq_refl).
  vm_compute in H. discriminate H.
Qed.

Lemma joined_direction_spec (v h : Label) :
  (if (0 <? List.length
              ((if negb (label_eqb v CENTER) then [label_name v] else [])
               ++ (if negb (label_eqb h CENTER) then [label_name h] else [])))%nat
   then join "_"
          ((if negb (label_eqb v CENTER) then [label_name v] else [])
           ++ (if negb (label_eqb h CENTER) then [label_name h] else []))
   else "CENTER"%string)
  = joined_direction v h.
Proof. destruct v, h; vm_compute; reflexivity. Qed.

Lemma away_spec (v h : Label) :
  negb (label_eqb h CENTER) || negb (label_eqb v CENTER) = true
  <-> h <> CENTER \/ v <> CENTER.
Proof.
  destruct v, h; vm_compute; split; intros H;
    try discriminate H; try reflexivity;
    try (left; discriminate); try (right; discriminate).
  destruct H as [H | H]; exfalso; apply H; reflexivity.
Qed.

(** C8, amended.  On a full array a per-eye vertical reading is valid only
    when the eye width is not positive or [eyeHeight / eyeWidth] is not below
    0.02, so that for a positive width and a ratio that is a number the ratio
    is at least 0.02; the averaged vertical offset is used only when both
    eyes are valid, otherwise the vertical gaze is CENTER; with both valid an
    average below -0.25 gives UP and one above 0.25 gives DOWN; the combined
    direction joins the non-center vertical label, then the horizontal one,
    with an underscore, and is CENTER when both are center; and
    [isLookingAway] holds exactly when one of the two is not CENTER. *)
Theorem gaze_classification (lm : Face) :
  478 <= List.length lm ->
  exists g rv lv,
    analyzeGaze (Some lm) = Normal g /\
    vertical_reading lm RightEye = Normal rv /\
    vertical_reading lm LeftEye = Normal lv /\
    (forall e v,
        vertical_reading lm e = Normal v -> valid v = true ->
        exists top bottom,
          top_of lm e = Some top /\ bottom_of lm e = Some bottom /\
          (PrimFloat.ltb 0 (eyeWidth_of lm e) = true ->
           PrimFloat.ltb (eyeHeight top bottom / eyeWidth_of lm e) 0.02 = false /\
           (PrimFloat.is_nan (eyeHeight top bottom / eyeWidth_of lm e) = false ->
            PrimFloat.leb 0.02 (eyeHeight top bottom / eyeWidth_of lm e) = true))) /\
    (valid rv && valid lv = false -> verticalGaze g = CENTER) /\
    (valid rv && valid lv = true ->
     let avgVertical := ((offset rv + offset lv) / 2)%float in
     (PrimFloat.ltb avgVertical (-0.25) = true -> verticalGaze g = UP) /\
     (PrimFloat.ltb 0.25 avgVertical = true -> verticalGaze g = DOWN) /\
     (PrimFloat.ltb avgVertical (-0.25) = false ->
      PrimFloat.ltb 0.25 avgVertical = false -> verticalGaze g = CENTER)) /\
    gazeDirection g = joined_direction (verticalGaze g) (horizontalGaze g) /\
    (isLookingAway g = true
     <-> horizontalGaze g <> CENTER \/ verticalGaze g <> CENTER).
Proof.
  intros Hlen.
  destruct (getHorizontalOffset_total (at_index lm RIGHT_IRIS)
              (at_index lm RIGHT_EYE_INNER) (at_index lm RIGHT_EYE_OUTER))
    as [rh Hrh].
  destruct (getHorizontalOffset_total (at_index lm LEFT_IRIS)
              (at_index lm LEFT_EYE_INNER) (at_index lm LEFT_EYE_OUTER))
    as [lh Hlh].
  destruct (getVerticalOffset_total (iris_of lm RightEye) (top_of lm RightEye)
              (bottom_of lm RightEye) (eyeWidth_of lm RightEye)) as [rv Hrv].
  destruct (getVerticalOffset_total (iris_of lm LeftEye) (top_of lm LeftEye)
              (bottom_of lm LeftEye) (eyeWidth_of lm LeftEye)) as [lv Hlv].
  fold (vertical_reading lm RightEye) in Hrv.
  fold (vertical_reading lm LeftEye) in Hlv.
  assert (Hrv' := Hrv). assert (Hlv' := Hlv).
  unfold vertical_reading, iris_of, top_of, bottom_of, eyeWidth_of in Hrv', Hlv'.
  eexists. exists rv, lv.
  split.
  { unfold analyzeGaze.
    destruct (Nat.ltb_spec (List.length lm) 478) as [Hlt|_]; [lia|].
    cbv zeta. rewrite Hrh, Hlh. cbn [bind]. rewrite Hrv', Hlv'. cbn [bind].
    reflexivity. }
  cbn [verticalGaze horizontalGaze gazeDirection isLookingAway].
  split; [exact Hrv|]. split; [exact Hlv|].
  split.
  { intros e v Hv Hvalid. unfold vertical_reading in Hv.
    destruct (getVerticalOffset_valid _ _ _ _ _ Hv Hvalid)
      as (i & t & b & _ & Ht & Hb & Hchk).
    exists t, b. split; [exact Ht|]. split; [exact Hb|].
    intros Hw. rewrite Hw in Hchk. cbn [andb] in Hchk.
    change MIN_EYE_HEIGHT_RATIO with 0.02%float in Hchk.
    split; [exact Hchk|].
    intros Hnan. apply not_ltb_leb; [exact Hnan|reflexivity|exact Hchk]. }
  split.
  { intros Hv. rewrite Hv. reflexivity. }
  split.
  { intros Hv. rewrite Hv. cbv zeta.
    change (- VERTICAL_THRESHOLD)%float with (-0.25)%float.
    change VERTICAL_THRESHOLD with 0.25%float.
    set (avgVertical := ((offset rv + offset lv) / 2)%float).
    repeat split.
    - intros H. rewrite H. reflexivity.
    - intros H. destruct (PrimFloat.ltb avgVertical (-0.25)) eqn:E.
      + exfalso. exact (vertical_thresholds_apart avgVertical E H).
      + rewrite H. reflexivity.
    - intros H1 H2. rewrite H1, H2. reflexivity. }
  split.
  { apply joined_direction_spec. }
  apply away_spec.
Qed.

Lemma gaze_classification_witness :
  478 <= List.length face_collapsed /\
  exists g, analyzeGaze (Some face_collapsed) = Normal g /\
            verticalGaze g = CENTER /\ gazeDirection g = "CENTER"%string.
Proof.
  assert (Hlen : 478 <= List.length face_collapsed) by (vm_compute; apply le_n).
  split; [exact Hlen|].
  destruct (gaze_classification face_collapsed Hlen)
    as (g & rv & lv & Hg & Hrv & Hlv & _ & _ & Hboth & Hdir & _).
  exists g. split; [exact Hg|].
  assert (Hv : verticalGaze g = CENTER).
  { injection Hrv as <-. injection Hlv as <-.
    exact (proj2 (proj2 (Hboth eq_refl)) eq_refl eq_refl). }
  split; [exact Hv|].
  rewrite Hdir, Hv.
  vm_compute in Hg. injection Hg as <-. reflexivity.
Defined.

End Gaze.

(* ------------------------------------------------------------------ *)
(** ** The flag aggregator *)

Section Flags.

Import FlagManager Fixtures.

Lemma flag_eqb_eq (a b : Flag) : flag_eqb a b = true <-> a = b.
Proof. destruct a, b; vm_compute; split; congruence. Qed.

Lemma flag_le_total (a b : Flag) : ~ flag_le a b -> flag_le b a.
Proof. destruct a, b; vm_compute; congruence. Qed.

Lemma flag_le_antisym (a b : Flag) : flag_le a b -> flag_le b a -> a = b.
Proof. destruct a, b; vm_compute; congruence. Qed.

Lemma flag_le_trans (a b c : Flag) : flag_le a b -> flag_le b c -> flag_le a c.
Proof. destruct a, b, c; vm_compute; congruence. Qed.

Lemma insert_sorted_perm (f : Flag) (l : list Flag) :
  Permutation (insert_sorted f l) (f :: l).
Proof.
  induction l as [|g rest IH]; cbn [insert_sorted]; [reflexivity|].
  destruct (String.leb (flag_name f) (flag_name g)); [reflexivity|].
  rewrite IH. apply perm_swap.
Qed.

Lemma sort_perm (l : list Flag) : Permutation (sort l) l.
Proof.
  induction l as [|f rest IH]; cbn [sort]; [reflexivity|].
  rewrite insert_sorted_perm. apply perm_skip, IH.
Qed.

Lemma insert_sorted_sorted (f : Flag) (l : list Flag) :
  StronglySorted flag_le l -> StronglySorted flag_le (insert_sorted f l).
Proof.
  induction 1 as [|g rest Hs IH Hall]; cbn [insert_sorted].
  - repeat constructor.
  - destruct (String.leb (flag_name f) (flag_name g)) eqn:E.
    + constructor; [constructor; assumption|].
      constructor; [exact E|].
      eapply Forall_impl; [|exact Hall].
      intros h Hgh. exact (flag_le_trans f g h E Hgh).
    + constructor; [exact IH|].
      eapply Permutation_Forall; [symmetry; apply insert_sorted_perm|].
      constructor; [|exact Hall].
      apply flag_le_total. unfold flag_le. rewrite E. discriminate.
Qed.

Lemma sort_sorted (l : list Flag) : StronglySorted flag_le (sort l).
Proof.
  induction l as [|f rest IH]; cbn [sort]; [constructor|].
  apply insert_sorted_sorted, IH.
Qed.

Lemma sorted_perm_unique (l1 l2 : list Flag) :
  StronglySorted flag_le l1 -> StronglySorted flag_le l2 ->
  Permutation l1 l2 -> l1 = l2.
Proof.
  intros H1. revert l2.
  induction H1 as [|a l1 Hs1 IH Ha]; intros l2 H2 Hp.
  - apply Permutation_nil in Hp. congruence.
  - destruct H2 as [|b l2 Hs2 Hb].
    + symmetry in Hp. apply Permutation_nil in Hp. discriminate.
    + assert (Hab : a = b).
      { assert (Hin1 : In a (b :: l2))
          by (eapply Permutation_in; [exact Hp|left; reflexivity]).
        assert (Hin2 : In b (a :: l1))
          by (eapply Permutation_in; [symmetry; exact Hp|left; reflexivity]).
        destruct Hin1 as [E|Hin1]; [congruence|].
        destruct Hin2 as [E|Hin2]; [congruence|].
        rewrite Forall_forall in Ha, Hb.
        apply flag_le_antisym; [apply Ha, Hin2|apply Hb, Hin1]. }
      subst b. f_equal. apply IH; [exact Hs2|].
      eapply Permutation_cons_inv; exact Hp.
Qed.

Lemma every_same_eq (a b : list Flag) :
  List.length a = List.length b -> (every_same a b = true <-> a = b).
Proof.
  revert b. induction a as [|v a IH]; intros [|w b] Hlen;
    cbn [every_same]; try discriminate Hlen.
  - split; reflexivity.
  - injection Hlen as Hlen. rewrite andb_true_iff, flag_eqb_eq, (IH b Hlen).
    split; [intros [-> ->]; reflexivity|intros H; injection H; auto].
Qed.

(** [arraysEqual] decides equality up to order. *)
Lemma arraysEqual_Permutation (a b : list Flag) :
  arraysEqual a b = true <-> Permutation a b.
Proof.
  unfold arraysEqual.
  destruct (Nat.eqb_spec (List.length a) (List.length b)) as [Hlen|Hlen];
    cbn [negb].
  - assert (Hl : List.length (sort a) = List.length (sort b)).
    { rewrite (Permutation_length (sort_perm a)),
        (Permutation_length (sort_perm b)). exact Hlen. }
    rewrite (every_same_eq _ _ Hl). split.
    + intros E. rewrite <- (sort_perm a), E. apply sort_perm.
    + intros Hp. apply sorted_perm_unique; try apply sort_sorted.
      rewrite (sort_perm a), (sort_perm b). exact Hp.
  - split; [discriminate|].
    intros Hp. apply Permutation_length in Hp. contradiction.
Qed.

(** The three results of the classification, projected out of the new
    state. *)
Lemma processAnalysis_flags (now : Z) (st : FlagState) (a : Sample.Sample) :
  currentFlags (processAnalysis now st a) =
  (if (1 <? Sample.faceCount a)%nat then [MULTIPLE_FACES]
   else if (Sample.faceCount a =? 0)%nat then
          if (3 <=? S (consecutiveMissing st))%nat then [FACE_MISSING] else []
        else if truthy_bool (Sample.isRotated a) then [FACE_ROTATED]
             else if truthy_bool (Sample.isLookingAway a) then [GAZE_AWAY]
                  else [FACE_OK])
  ++ (if PrimFloat.ltb (Sample.brightness a) 50 then [LOW_LIGHT] else []).
Proof.
  unfold processAnalysis.
  change LOW_LIGHT_THRESHOLD with 50%float.
  change FACE_MISSING_THRESHOLD with 3.
  destruct (1 <? Sample.faceCount a)%nat;
    [|destruct (Sample.faceCount a =? 0)%nat;
      [destruct (3 <=? S (consecutiveMissing st))%nat
      |destruct (truthy_bool (Sample.isRotated a));
       [|destruct (truthy_bool (Sample.isLookingAway a))]]];
    cbn [currentFlags];
    destruct (PrimFloat.ltb (Sample.brightness a) 50);
    rewrite ?app_nil_r; reflexivity.
Qed.

Lemma processAnalysis_missing (now : Z) (st : FlagState) (a : Sample.Sample) :
  consecutiveMissing (processAnalysis now st a) =
  if (1 <? Sample.faceCount a)%nat then 0
  else if (Sample.faceCount a =? 0)%nat then S (consecutiveMissing st)
       else 0.
Proof.
  unfold processAnalysis.
  destruct (1 <? Sample.faceCount a)%nat;
    [|destruct (Sample.faceCount a =? 0)%nat;
      [|destruct (truthy_bool (Sample.isRotated a));
        [|destruct (truthy_bool (Sample.isLookingAway a))]]];
    reflexivity.
Qed.

(** The history is either kept or is its last 19 entries followed by one
    entry that records the new flags; it is kept when [arraysEqual] accepts
    the two flag arrays and the gaze test does not fire. *)
Lemma processAnalysis_history (now : Z) (st : FlagState) (a : Sample.Sample) :
  let st' := processAnalysis now st a in
  (history st' = history st \/
   exists entry,
     history st' = slice_last 19 (history st) ++ [entry] /\
     flags entry = currentFlags st' /\ timestamp entry = now) /\
  (arraysEqual (currentFlags st) (currentFlags st') = true ->
   (truthy_bool (Sample.isLookingAway a) = true ->
    jsstring_eqb (gazeDirection st) (gazeDirection st') = true) ->
   history st' = history st).
Proof.
  unfold processAnalysis.
  destruct (1 <? Sample.faceCount a)%nat;
    [|destruct (Sample.faceCount a =? 0)%nat;
      [|destruct (truthy_bool (Sample.isRotated a));
        [|destruct (truthy_bool (Sample.isLookingAway a)) eqn:Ela]]];
    cbv zeta; cbn [currentFlags gazeDirection history];
    (match goal with
     | |- context [arraysEqual ?x ?y] => destruct (arraysEqual x y)
     end);
    cbn [negb orb];
    try (match goal with
         | |- context [jsstring_eqb ?x ?y] => destruct (jsstring_eqb x y)
         end);
    try (destruct (truthy_bool (Sample.isLookingAway a)));
    cbn [negb andb orb];
    (split;
     [first [left; reflexivity
            |right; eexists; split; [reflexivity|split; reflexivity]]
     |intros H1 H2; first [reflexivity|discriminate H1
                          |specialize (H2 eq_refl); discriminate H2]]).
Qed.

Lemma slice_last_length {A : Type} (n : nat) (h : list A) :
  List.length (slice_last n h) <= n.
Proof. unfold slice_last. rewrite length_skipn. lia. Qed.

Lemma slice_last_suffix {A : Type} (n : nat) (h : list A) :
  exists dropped, h = dropped ++ slice_last n h.
Proof.
  exists (firstn (List.length h - n) h). unfold slice_last.
  symmetry. apply firstn_skipn.
Qed.

Lemma processAnalysis_history_bound (now : Z) (st : FlagState)
      (a : Sample.Sample) :
  List.length (history st) <= 20 ->
  List.length (history (processAnalysis now st a)) <= 20.
Proof.
  intros Hb.
  destruct (proj1 (processAnalysis_history now st a)) as [-> | (e & -> & _)];
    [exact Hb|].
  rewrite length_app. cbn [List.length].
  pose proof (slice_last_length 19 (history st)). lia.
Qed.

Lemma feed_history_bound (inputs : list (Z * Sample.Sample)) (st : FlagState) :
  List.length (history st) <= 20 ->
  List.length (history (feed st inputs)) <= 20.
Proof.
  revert st. induction inputs as [|[now a] rest IH]; intros st Hb;
    cbn [feed]; [exact Hb|].
  apply IH, processAnalysis_history_bound, Hb.
Qed.

Lemma processAnalysis_NoDup (now : Z) (st : FlagState) (a : Sample.Sample) :
  NoDup (currentFlags (processAnalysis now st a)).
Proof.
  rewrite processAnalysis_flags.
  repeat match goal with
         | |- context [if ?b then _ else _] => destruct b
         end;
    cbn [app]; repeat constructor; cbn [In]; intuition discriminate.
Qed.

Lemma feed_NoDup (inputs : list (Z * Sample.Sample)) (st : FlagState) :
  NoDup (currentFlags st) -> NoDup (currentFlags (feed st inputs)).
Proof.
  revert st. induction inputs as [|[now a] rest IH]; intros st Hn;
    cbn [feed]; [exact Hn|].
  apply IH, processAnalysis_NoDup.
Qed.

Lemma jsstring_eqb_refl (g : jsstring) : jsstring_eqb g g = true.
Proof. destruct g; cbn [jsstring_eqb]; auto using String.eqb_refl. Qed.

(** C4.  Fed the face counts 1, 1, 0, 0, 0, 1 from the initial state,
    FACE_MISSING is absent after the first and after the second zero, present
    after the third, and [consecutiveMissing] is 0 again after the final 1.
    In general a face count of 0 adds one to [consecutiveMissing] and flags
    FACE_MISSING only when the new count has reached 3. *)
Theorem face_missing_debounce (inputs : list (Z * Sample.Sample)) :
  face_counts inputs = [1; 1; 0; 0; 0; 1] ->
  ~ In FACE_MISSING (currentFlags (feed createInitialState (firstn 3 inputs))) /\
  ~ In FACE_MISSING (currentFlags (feed createInitialState (firstn 4 inputs))) /\
  In FACE_MISSING (currentFlags (feed createInitialState (firstn 5 inputs))) /\
  consecutiveMissing (feed createInitialState inputs) = 0 /\
  (forall now st a,
      Sample.faceCount a = 0 ->
      consecutiveMissing (processAnalysis now st a) = S (consecutiveMissing st) /\
      (In FACE_MISSING (currentFlags (processAnalysis now st a))
       <-> 3 <= S (consecutiveMissing st))).
Proof.
  intros Hc.
  destruct inputs as [|[t1 a1] [|[t2 a2] [|[t3 a3] [|[t4 a4] [|[t5 a5]
    [|[t6 a6] [|]]]]]]]; try discriminate Hc.
  unfold face_counts in Hc. cbn [map snd] in Hc.
  injection Hc as H1 H2 H3 H4 H5 H6.
  cbn [firstn feed].
  rewrite !processAnalysis_flags, !processAnalysis_missing.
  rewrite H1, H2, H3, H4, H5, H6.
  cbn [Nat.ltb Nat.leb Nat.eqb consecutiveMissing createInitialState].
  split; [|split; [|split; [|split]]].
  - destruct (PrimFloat.ltb (Sample.brightness a3) 50); cbn [app In];
      intuition discriminate.
  - destruct (PrimFloat.ltb (Sample.brightness a4) 50); cbn [app In];
      intuition discriminate.
  - cbn [app In]. left. reflexivity.
  - reflexivity.
  - intros now st a H0.
    rewrite processAnalysis_missing, processAnalysis_flags, H0.
    change (1 <? 0)%nat with false. change (0 =? 0)%nat with true. cbv iota.
    split; [reflexivity|].
    destruct (Nat.leb_spec 3 (S (consecutiveMissing st))) as [Hle|Hlt].
    + split; [intros _; exact Hle|intros _; cbn [app In]; left; reflexivity].
    + split; [|lia].
      destruct (PrimFloat.ltb (Sample.brightness a) 50); cbn [app In];
        intuition congruence.
Qed.

Lemma face_missing_debounce_witness :
  let inputs :=
    [(1000, plain_sample 1 120); (1500, plain_sample 1 120);
     (2000, plain_sample 0 120); (2500, plain_sample 0 120);
     (3000, plain_sample 0 120); (3500, plain_sample 1 120)]%Z in
  face_counts inputs = [1; 1; 0; 0; 0; 1] /\
  ~ In FACE_MISSING (currentFlags (feed createInitialState (firstn 3 inputs))) /\
  ~ In FACE_MISSING (currentFlags (feed createInitialState (firstn 4 inputs))) /\
  In FACE_MISSING (currentFlags (feed createInitialState (firstn 5 inputs))) /\
  consecutiveMissing (feed createInitialState inputs) = 0.
Proof.
  cbv zeta. split; [reflexivity|].
  destruct (face_missing_debounce
              [(1000, plain_sample 1 120); (1500, plain_sample 1 120);
               (2000, plain_sample 0 120); (2500, plain_sample 0 120);
               (3000, plain_sample 0 120); (3500, plain_sample 1 120)]%Z
              eq_refl) as (A & B & C & D & _).
  repeat split; assumption.
Defined.

(** C5.  Along every sequence of samples fed from the initial state the
    history never holds more than 20 entries, a new entry going to the end
    while the oldest ones are dropped from the front; and a call whose flags
    are the previous flags as an unordered set, with the gaze direction
    unchanged if the sample is looking away, leaves the history as it was. *)
Theorem history_bounded_and_deduplicated (inputs : list (Z * Sample.Sample)) :
  let st := feed createInitialState inputs in
  List.length (history st) <= 20 /\
  forall now a,
    let st' := processAnalysis now st a in
    List.length (history st') <= 20 /\
    (history st' = history st \/
     exists entry dropped,
       history st ++ [entry] = dropped ++ history st' /\
       flags entry = currentFlags st') /\
    ((forall f, In f (currentFlags st') <-> In f (currentFlags st)) ->
     (truthy_bool (Sample.isLookingAway a) = true ->
      gazeDirection st' = gazeDirection st) ->
     history st' = history st).
Proof.
  cbv zeta.
  assert (Hb : List.length (history (feed createInitialState inputs)) <= 20)
    by (apply feed_history_bound; cbn; lia).
  split; [exact Hb|].
  intros now a.
  split; [apply processAnalysis_history_bound, Hb|].
  destruct (processAnalysis_history now (feed createInitialState inputs) a)
    as [Hshape Hkeep].
  split.
  - destruct Hshape as [E | (entry & E & Hf & _)]; [left; exact E|].
    right. exists entry.
    destruct (slice_last_suffix 19 (history (feed createInitialState inputs)))
      as [dropped Hd].
    exists dropped. split; [|exact Hf].
    rewrite E, app_assoc, <- Hd. reflexivity.
  - intros Hset Hgaze. apply Hkeep.
    + apply arraysEqual_Permutation. apply NoDup_Permutation.
      * apply feed_NoDup. constructor.
      * apply processAnalysis_NoDup.
      * intros f. symmetry. apply Hset.
    + intros Hla. rewrite (Hgaze Hla). apply jsstring_eqb_refl.
Qed.

Lemma history_bounded_and_deduplicated_witness :
  let st := feed createInitialState [(1000%Z, plain_sample 1 120)] in
  let st' := processAnalysis 1500 st (plain_sample 1 120) in
  (forall f, In f (currentFlags st') <-> In f (currentFlags st)) /\
  List.length (history st) = 1 /\ history st' = history st.
Proof.
  cbv zeta.
  assert (Hset : forall f,
             In f (currentFlags
                     (processAnalysis 1500
                        (feed createInitialState [(1000%Z, plain_sample 1 120)])
                        (plain_sample 1 120)))
             <-> In f (currentFlags
                         (feed createInitialState
                               [(1000%Z, plain_sample 1 120)])))
    by (intros f; vm_compute; tauto).
  split; [exact Hset|]. split; [reflexivity|].
  destruct (history_bounded_and_deduplicated [(1000%Z, plain_sample 1 120)])
    as (_ & H).
  destruct (H 1500%Z (plain_sample 1 120)) as (_ & _ & Hkeep).
  apply Hkeep; [exact Hset|].
  intros Hla. discriminate Hla.
Defined.

(** C9.  LOW_LIGHT is in the new flags exactly when the brightness is below
    50, whatever the face-presence branch: the flags are the ones of that
    branch, which do not depend on the brightness and never hold LOW_LIGHT,
    followed by LOW_LIGHT when the brightness is below 50.  A brightness of
    exactly 50 does not give LOW_LIGHT. *)
Theorem low_light_flag (now : Z) (st : FlagState) (a : Sample.Sample) :
  (In LOW_LIGHT (currentFlags (processAnalysis now st a))
   <-> PrimFloat.ltb (Sample.brightness a) 50 = true) /\
  ~ In LOW_LIGHT
      (currentFlags (processAnalysis now st (Sample.set_brightness a 50))) /\
  exists presence,
    ~ In LOW_LIGHT presence /\
    forall b,
      currentFlags (processAnalysis now st (Sample.set_brightness a b))
      = presence ++ (if PrimFloat.ltb b 50 then [LOW_LIGHT] else []).
Proof.
  assert (Hp : forall c1 c2 c3 c4 c5,
             ~ In LOW_LIGHT
                 (if c1 : bool then [MULTIPLE_FACES]
                  else if c2 : bool then
                         if c3 : bool then [FACE_MISSING] else []
                       else if c4 : bool then [FACE_ROTATED]
                            else if c5 : bool then [GAZE_AWAY] else [FACE_OK])).
  { intros [|] [|] [|] [|] [|]; cbn [In]; intuition discriminate. }
  split; [|split].
  - rewrite processAnalysis_flags, in_app_iff.
    destruct (PrimFloat.ltb (Sample.brightness a) 50); cbn [In]; split;
      try reflexivity; intros H.
    + right. left. reflexivity.
    + destruct H as [H | []]. exfalso. exact (Hp _ _ _ _ _ H).
    + discriminate H.
  - rewrite processAnalysis_flags, in_app_iff.
    cbn [Sample.set_brightness Sample.brightness].
    replace (PrimFloat.ltb 50 50) with false by (vm_compute; reflexivity).
    cbn [In]. intros [H | []]. exact (Hp _ _ _ _ _ H).
  - exists (currentFlags
              (processAnalysis now st (Sample.set_brightness a 50))).
    split.
    + rewrite processAnalysis_flags, in_app_iff.
      cbn [Sample.set_brightness Sample.brightness].
      replace (PrimFloat.ltb 50 50) with false by (vm_compute; reflexivity).
      cbn [In]. intros [H | []]. exact (Hp _ _ _ _ _ H).
    + intros b. rewrite !processAnalysis_flags.
      cbn [Sample.set_brightness Sample.brightness Sample.faceCount
           Sample.isRotated Sample.isLookingAway].
      replace (PrimFloat.ltb 50 50) with false by (vm_compute; reflexivity).
      rewrite app_nil_r. reflexivity.
Qed.

(** C10.  The flags returned by [processAnalysis] are at most one of
    MULTIPLE_FACES, FACE_MISSING, FACE_ROTATED, GAZE_AWAY, FACE_OK, followed
    or not by LOW_LIGHT, so at most two flags; and they are empty exactly
    when the face count is 0, the incremented [consecutiveMissing] is below 3
    and the brightness is not below 50, which for a brightness that is a
    number is to say that it is at least 50. *)
Theorem flag_set_shape (now : Z) (st : FlagState) (a : Sample.Sample) :
  let flags := currentFlags (processAnalysis now st a) in
  (exists status,
      (status = [] \/ exists f, status = [f] /\ In f status_flags) /\
      (flags = status \/ flags = status ++ [LOW_LIGHT])) /\
  List.length flags <= 2 /\
  (flags = [] <->
   Sample.faceCount a = 0 /\ S (consecutiveMissing st) < 3 /\
   PrimFloat.ltb (Sample.brightness a) 50 = false) /\
  (PrimFloat.is_nan (Sample.brightness a) = false ->
   (flags = [] <->
    Sample.faceCount a = 0 /\ S (consecutiveMissing st) < 3 /\
    PrimFloat.leb 50 (Sample.brightness a) = true)).
Proof.
  cbv zeta. rewrite processAnalysis_flags.
  assert (Hempty :
            (if (1 <? Sample.faceCount a)%nat then [MULTIPLE_FACES]
             else if (Sample.faceCount a =? 0)%nat then
                    if (3 <=? S (consecutiveMissing st))%nat
                    then [FACE_MISSING] else []
                  else if truthy_bool (Sample.isRotated a) then [FACE_ROTATED]
                       else if truthy_bool (Sample.isLookingAway a)
                            then [GAZE_AWAY] else [FACE_OK])
            ++ (if PrimFloat.ltb (Sample.brightness a) 50
                then [LOW_LIGHT] else []) = []
            <-> Sample.faceCount a = 0 /\ S (consecutiveMissing st) < 3 /\
                PrimFloat.ltb (Sample.brightness a) 50 = false).
  { destruct (Nat.ltb_spec 1 (Sample.faceCount a)) as [H1|H1];
      [|destruct (Nat.eqb_spec (Sample.faceCount a) 0) as [H0|H0];
        [destruct (Nat.leb_spec 3 (S (consecutiveMissing st))) as [H3|H3]
        |destruct (truthy_bool (Sample.isRotated a));
         [|destruct (truthy_bool (Sample.isLookingAway a))]]];
      destruct (PrimFloat.ltb (Sample.brightness a) 50); cbn [app];
      split; try discriminate; try (intros (A & B & C); first [lia|discriminate C]).
    - intros _. repeat split; [exact H0|exact H3].
    - reflexivity. }
  split; [|split; [|split]].
  - exists (if (1 <? Sample.faceCount a)%nat then [MULTIPLE_FACES]
            else if (Sample.faceCount a =? 0)%nat then
                   if (3 <=? S (consecutiveMissing st))%nat
                   then [FACE_MISSING] else []
                 else if truthy_bool (Sample.isRotated a) then [FACE_ROTATED]
                      else if truthy_bool (Sample.isLookingAway a)
                           then [GAZE_AWAY] else [FACE_OK]).
    split.
    + repeat match goal with
             | |- context [if ?b then _ else _] => destruct b
             end;
        first [left; reflexivity
              |right; eexists; split; [reflexivity|cbn; tauto]].
    + destruct (PrimFloat.ltb (Sample.brightness a) 50);
        [right; reflexivity|left; apply app_nil_r].
  - repeat match goal with
           | |- context [if ?b then _ else _] => destruct b
           end; cbn; lia.
  - exact Hempty.
  - intros Hnan. rewrite Hempty.
    split; intros (A & B & C); repeat split; try assumption.
    + apply not_ltb_leb; [exact Hnan|reflexivity|exact C].
    + apply leb_not_ltb. exact C.
Qed.

Lemma flag_set_shape_witness :
  PrimFloat.is_nan (Sample.brightness (plain_sample 0 120)) = false /\
  currentFlags (processAnalysis 1000 createInitialState (plain_sample 0 120))
  = [].
Proof.
  split; [reflexivity|].
  destruct (flag_set_shape 1000 createInitialState (plain_sample 0 120))
    as (_ & _ & _ & H).
  apply (H eq_refl). repeat split. cbn. lia.
Defined.

End Flags.

(* ------------------------------------------------------------------ *)
(** ** The frame scheduler *)

Section Scheduler.

Import FrameProcessor Fixtures.

(** What the part after the [await] does, case by case. *)
Lemma resume_detector_throws (o : Options) (st : State) (fr : Frame) (e : Exn) :
  detected fr = Throw e ->
  processFrame_resume o st fr
  = (set_isProcessing false st, emit (has_onError o) (onError e)).
Proof. intros H. unfold processFrame_resume. rewrite H. reflexivity. Qed.

Lemma events_emit (present : bool) (c : Callback) :
  events (emit present c) = if present then [c] else [].
Proof. destruct present; reflexivity. Qed.

Lemma in_emit (present : bool) (c c' : Callback) :
  In (call c') (emit present c) -> c' = c.
Proof.
  destruct present; cbn [emit In]; [|tauto].
  intros [H | []]. congruence.
Qed.

(** An analysis event can only come from the reporting step, and then it is
    the sample built there. *)
Lemma resume_analysis (o : Options) (st : State) (fr : Frame) (s : Sample.Sample) :
  In (call (onAnalysis s)) (snd (processFrame_resume o st fr)) ->
  exists d data,
    detected fr = Normal d /\ pixels fr = Normal data /\
    s = Sample.mkSample (count d) None None JUndefined
                        (calculateBrightness data) (elapsed fr).
Proof.
  unfold processFrame_resume.
  destruct (detected fr) as [d|e].
  2:{ cbn [snd catch_finally]. intros H. apply in_emit in H. discriminate H. }
  destruct (canvas st).
  2:{ cbn [snd catch_finally]. intros H. apply in_emit in H. discriminate H. }
  destruct (pixels fr) as [data|e].
  2:{ cbn [snd catch_finally In].
      intros [H | H]; [discriminate H|apply in_emit in H; discriminate H]. }
  intros H. exists d, data. split; [reflexivity|]. split; [reflexivity|].
  destruct (PrimFloat.ltb MAX_PROCESSING_MS (endTime fr - startTime fr)).
  - destruct (MAX_CONSECUTIVE_OVERRUNS
              <=? consecutiveOverruns
                    (set_consecutiveOverruns (S (consecutiveOverruns st)) st))%nat;
      cbn [snd disable In] in H; destruct H as [H | H]; try discriminate H;
      apply in_emit in H; try discriminate H; injection H as ->; reflexivity.
  - cbn [snd In] in H. destruct H as [H | H]; [discriminate H|].
    apply in_emit in H. injection H as ->. reflexivity.
Qed.

Lemma begin_no_analysis (o : Options) (st : State) (fr : Frame) (s : Sample.Sample) :
  match processFrame_begin o st fr with
  | Skipped => True
  | Ended _ eff | InFlight _ eff => ~ In (call (onAnalysis s)) eff
  end.
Proof.
  unfold processFrame_begin.
  destruct (isProcessing st || isDisabled st); [exact I|].
  destruct (video fr) as [v|]; [|exact I].
  destruct (readyState v <? 2)%nat; [exact I|].
  destruct (drawn fr) as [u|e].
  - cbn [In]. intros [H | [H | []]]; discriminate H.
  - cbn [catch_finally In].
    intros [H | H]; [discriminate H|apply in_emit in H; discriminate H].
Qed.

(** Every analysis event of a tick carries the sample built from the
    detector's count, the brightness of the pixels read back and the elapsed
    time, and nothing else. *)
Lemma processFrame_analysis (o : Options) (st : State) (fr : Frame)
      (s : Sample.Sample) :
  In (call (onAnalysis s)) (snd (processFrame o st fr)) ->
  exists d data,
    detected fr = Normal d /\ pixels fr = Normal data /\
    s = Sample.mkSample (count d) None None JUndefined
                        (calculateBrightness data) (elapsed fr).
Proof.
  unfold processFrame.
  pose proof (begin_no_analysis o st fr s) as Hb.
  destruct (processFrame_begin o st fr) as [|st1 eff|st1 eff].
  - intros [].
  - intros H. contradiction.
  - pose proof (resume_analysis o st1 fr s) as Hr.
    destruct (processFrame_resume o st1 fr) as [st2 eff2].
    cbn [snd] in *. intros H. apply in_app_or in H.
    destruct H as [H | H]; [contradiction|exact (Hr H)].
Qed.

(** C1 as the specification words it fails: the tick below finds one face,
    turned to the side, and reports a sample that has no [isRotated] at
    all. *)
Lemma analysis_carries_geometry_counterexample : ~ analysis_carries_geometry.
Proof.
  intros H.
  destruct (H all_callbacks (start 1 initial) (frame_taking 30)
              (Sample.mkSample 1 None None JUndefined 255 30))
    as (d & _ & (lm & rot & gz & _ & _ & _ & Hrot & _)).
  - vm_compute. do 3 right. left. reflexivity.
  - discriminate Hrot.
Qed.

(** C1, amended.  Every analysis event emitted by the scheduler carries a
    sample whose [faceCount] is the count the detector returned in that cycle,
    whose [brightness] is the one computed from the pixels read back and whose
    [processingTime] is the elapsed time; [isRotated], [isLookingAway] and
    [gazeDirection] are not set, the scheduler running no estimator. *)
Theorem analysis_sample_fields (o : Options) (st : State) (fr : Frame)
        (s : Sample.Sample) :
  In (call (onAnalysis s)) (snd (processFrame o st fr)) ->
  exists d data,
    detected fr = Normal d /\ pixels fr = Normal data /\
    Sample.faceCount s = count d /\
    Sample.brightness s = calculateBrightness data /\
    Sample.processingTime s = elapsed fr /\
    Sample.isRotated s = None /\
    Sample.isLookingAway s = None /\
    Sample.gazeDirection s = JUndefined.
Proof.
  intros H.
  destruct (processFrame_analysis o st fr s H) as (d & data & Hd & Hp & ->).
  exists d, data. repeat split; assumption.
Qed.

Lemma analysis_sample_fields_witness :
  In (call (onAnalysis (Sample.mkSample 1 None None JUndefined 255 30)))
     (snd (processFrame all_callbacks (start 1 initial) (frame_taking 30))) /\
  exists d data,
    detected (frame_taking 30) = Normal d /\
    pixels (frame_taking 30) = Normal data /\
    count d = 1 /\ calculateBrightness data = 255%float.
Proof.
  assert (Hin : In (call (onAnalysis
                            (Sample.mkSample 1 None None JUndefined 255 30)))
                   (snd (processFrame all_callbacks (start 1 initial)
                                      (frame_taking 30))))
    by (vm_compute; do 3 right; left; reflexivity).
  split; [exact Hin|].
  destruct (analysis_sample_fields _ _ _ _ Hin)
    as (d & data & Hd & Hp & Hc & Hb & _).
  exists d, data. cbn [Sample.faceCount Sample.brightness] in Hc, Hb.
  repeat split; try assumption; symmetry; assumption.
Defined.

(** The fuel given to the brightness loop is never used up: with the
    length of the data as fuel the loop ends on its own test, so more fuel
    changes nothing. *)
Lemma brightness_loop_fuel (data : list Byte.byte) (fuel i : nat)
      (total : float) (n : nat) :
  List.length data - i <= fuel ->
  brightness_loop (S fuel) data i total n = brightness_loop fuel data i total n.
Proof.
  revert i total n. induction fuel as [|fuel IH]; intros i total n Hf.
  - cbn [brightness_loop].
    destruct (Nat.ltb_spec i (List.length data)) as [Hlt|_]; [lia|reflexivity].
  - cbn [brightness_loop] in *.
    destruct (Nat.ltb_spec i (List.length data)) as [Hlt|_]; [|reflexivity].
    apply IH. unfold sampleStep. lia.
Qed.

(** The synchronous part of a tick that is not dropped. *)
Lemma begin_runs (o : Options) (st : State) (fr : Frame) :
  isProcessing st = false -> isDisabled st = false -> video_ready fr ->
  exists st1,
    isProcessing st1 = true /\ isDisabled st1 = false /\
    consecutiveOverruns st1 = consecutiveOverruns st /\
    intervalId st1 = intervalId st /\ canvas st1 <> None /\
    processFrame_begin o st fr =
    match drawn fr with
    | Normal _ => InFlight st1 [drawImage; detectFaces]
    | Throw e =>
        Ended (set_isProcessing false st1)
              (drawImage :: emit (has_onError o) (onError e))
    end.
Proof.
  intros Hp Hd (v & Hv & Hr). unfold processFrame_begin.
  rewrite Hp, Hd, Hv. cbn [orb].
  destruct (Nat.ltb_spec (readyState v) 2) as [Hlt|_]; [lia|].
  exists (match canvas (set_isProcessing true st) with
          | None => set_canvas (Some (initCanvas v)) (set_isProcessing true st)
          | Some _ => set_isProcessing true st
          end).
  split; [|split; [|split; [|split; [|split]]]].
  6:{ destruct (drawn fr); cbn [catch_finally]; reflexivity. }
  all: destruct (canvas (set_isProcessing true st)) eqn:E; cbn;
    try reflexivity; try assumption; try discriminate.
  cbn in E. rewrite E. discriminate.
Qed.

(** C3.  When capture or detection raises in a cycle, the cycle ends with
    the error event carrying the cause and with no analysis event,
    [consecutiveOverruns] is what it was, and [isProcessing] is false
    afterwards; the same holds of a detector that rejects after other calls
    went in between. *)
Theorem hard_failure_cycle (o : Options) (st : State) (fr : Frame) (e : Exn) :
  has_onError o = true ->
  isProcessing st = false -> isDisabled st = false ->
  hard_failure fr e ->
  let r := processFrame o st fr in
  events (snd r) = [onError e] /\
  (forall s, ~ In (call (onAnalysis s)) (snd r)) /\
  consecutiveOverruns (fst r) = consecutiveOverruns st /\
  isProcessing (fst r) = false /\
  (forall st1,
      detected fr = Throw e ->
      let r1 := processFrame_resume o st1 fr in
      events (snd r1) = [onError e] /\
      (forall s, ~ In (call (onAnalysis s)) (snd r1)) /\
      consecutiveOverruns (fst r1) = consecutiveOverruns st1 /\
      isProcessing (fst r1) = false).
Proof.
  intros Ho Hp Hd (Hv & Hf). cbv zeta.
  assert (Hresume : forall st1,
             detected fr = Throw e ->
             events (snd (processFrame_resume o st1 fr)) = [onError e] /\
             (forall s, ~ In (call (onAnalysis s))
                          (snd (processFrame_resume o st1 fr))) /\
             consecutiveOverruns (fst (processFrame_resume o st1 fr))
             = consecutiveOverruns st1 /\
             isProcessing (fst (processFrame_resume o st1 fr)) = false).
  { intros st1 Hdet. rewrite (resume_detector_throws o st1 fr e Hdet).
    cbn [fst snd]. rewrite events_emit, Ho.
    repeat split. intros s H. apply in_emit in H. discriminate H. }
  split; [|split; [|split; [|split]]]; try exact Hresume.
  all: destruct (begin_runs o st fr Hp Hd Hv)
      as (st1 & Hp1 & Hd1 & Hc1 & Hi1 & Hcv & Hb);
    unfold processFrame; rewrite Hb;
    destruct Hf as [Hdr | [Hdr Hdet]]; rewrite Hdr.
  - cbn [snd events]. rewrite events_emit, Ho. reflexivity.
  - destruct (Hresume st1 Hdet) as (He & _).
    destruct (processFrame_resume o st1 fr) as [st2 eff2].
    cbn [snd app events] in *. exact He.
  - intros s. cbn [snd In]. intros [H | H]; [discriminate H|].
    apply in_emit in H. discriminate H.
  - intros s. destruct (Hresume st1 Hdet) as (_ & Hn & _).
    specialize (Hn s).
    destruct (processFrame_resume o st1 fr) as [st2 eff2].
    cbn [snd app In] in *. intros [H | [H | H]]; try discriminate H.
    exact (Hn H).
  - cbn [fst]. exact Hc1.
  - destruct (Hresume st1 Hdet) as (_ & _ & Hc & _).
    destruct (processFrame_resume o st1 fr) as [st2 eff2].
    cbn [fst] in *. congruence.
  - reflexivity.
  - destruct (Hresume st1 Hdet) as (_ & _ & _ & Hfin).
    destruct (processFrame_resume o st1 fr) as [st2 eff2].
    cbn [fst] in *. exact Hfin.
Qed.

Lemma hard_failure_cycle_witness :
  let e := Rejected "model failed to load" in
  let r := processFrame all_callbacks (start 1 initial) frame_detector_fails in
  hard_failure frame_detector_fails e /\
  events (snd r) = [onError e] /\
  consecutiveOverruns (fst r) = 0 /\ isProcessing (fst r) = false.
Proof.
  cbv zeta.
  assert (Hf : hard_failure frame_detector_fails
                 (Rejected "model failed to load")).
  { split; [exists (mkVideo 4 320 240); split; [reflexivity|cbn; lia]|].
    right. split; reflexivity. }
  split; [exact Hf|].
  destruct (hard_failure_cycle all_callbacks (start 1 initial)
              frame_detector_fails _ eq_refl eq_refl eq_refl Hf)
    as (He & _ & Hc & Hp & _).
  repeat split; assumption.
Defined.

(** A cycle that completes over budget: the counter goes up by one; below
    the limit the sample is still reported, at the limit the scheduler is
    disabled, its timer cleared, and only the disabled event is emitted. *)
Lemma tick_over_budget (o : Options) (st : State) (fr : Frame) :
  isProcessing st = false -> isDisabled st = false -> over_budget fr ->
  let r := processFrame o st fr in
  isProcessing (fst r) = false /\
  consecutiveOverruns (fst r) = S (consecutiveOverruns st) /\
  (S (consecutiveOverruns st) < 3 ->
   isDisabled (fst r) = false /\ intervalId (fst r) = intervalId st /\
   forall reason, ~ In (call (onDisabled reason)) (snd r)) /\
  (3 <= S (consecutiveOverruns st) ->
   isDisabled (fst r) = true /\ intervalId (fst r) = None /\
   events (snd r)
   = if has_onDisabled o then [onDisabled "Processing time exceeded budget"]
     else []).
Proof.
  intros Hp Hd ((Hv & Hdr & (d & Hdet) & (data & Hpx)) & Hover). cbv zeta.
  destruct (begin_runs o st fr Hp Hd Hv)
    as (st1 & Hp1 & Hd1 & Hc1 & Hi1 & Hcv & Hb).
  unfold processFrame. rewrite Hb, Hdr.
  unfold processFrame_resume. rewrite Hdet, Hpx.
  destruct (canvas st1) as [cv|]; [|contradiction].
  unfold elapsed in Hover. rewrite Hover.
  change MAX_CONSECUTIVE_OVERRUNS with 3.
  cbn [consecutiveOverruns set_consecutiveOverruns]. rewrite Hc1.
  destruct (Nat.leb_spec 3 (S (consecutiveOverruns st))) as [Hle|Hlt];
    cbn [disable fst snd stop set_isDisabled set_intervalId set_isProcessing
         set_consecutiveOverruns isProcessing consecutiveOverruns isDisabled
         intervalId].
  - repeat split; try lia.
    cbn [app events]. apply events_emit.
  - repeat split; try lia; try assumption.
    intros reason. cbn [app In].
    intros [Hin | [Hin | [Hin | Hin]]]; try discriminate Hin.
    apply in_emit in Hin. discriminate Hin.
Qed.

(** The streak starts from 0: that is the counter [start] leaves when it
    starts the timer, and the counter every cycle within budget leaves. *)
Lemma start_fresh (h : positive) (st : State) :
  intervalId st = None ->
  isDisabled (start h st) = false /\ consecutiveOverruns (start h st) = 0 /\
  intervalId (start h st) = Some h /\ isProcessing (start h st) = isProcessing st.
Proof. intros Hi. unfold start. rewrite Hi. cbn. auto. Qed.

Lemma tick_within_budget (o : Options) (st : State) (fr : Frame) :
  isProcessing st = false -> isDisabled st = false -> completes fr ->
  PrimFloat.ltb MAX_PROCESSING_MS (elapsed fr) = false ->
  let r := processFrame o st fr in
  isProcessing (fst r) = false /\ isDisabled (fst r) = false /\
  consecutiveOverruns (fst r) = 0 /\ intervalId (fst r) = intervalId st /\
  exists s, events (snd r) = if has_onAnalysis o then [onAnalysis s] else [].
Proof.
  intros Hp Hd (Hv & Hdr & (d & Hdet) & (data & Hpx)) Hwithin. cbv zeta.
  destruct (begin_runs o st fr Hp Hd Hv)
    as (st1 & Hp1 & Hd1 & Hc1 & Hi1 & Hcv & Hb).
  unfold processFrame. rewrite Hb, Hdr.
  unfold processFrame_resume. rewrite Hdet, Hpx.
  destruct (canvas st1) as [cv|]; [|contradiction].
  unfold elapsed in Hwithin. rewrite Hwithin.
  cbn [fst snd set_isProcessing set_consecutiveOverruns isProcessing
       consecutiveOverruns isDisabled intervalId].
  repeat split; try assumption.
  eexists. cbn [app events]. apply events_emit.
Qed.

(** A tick that is dropped, or whose cycle is cut short, changes neither the
    counter nor the disabled flag nor the timer, and disables nothing. *)
Lemma tick_not_completed (o : Options) (st : State) (fr : Frame) :
  isProcessing st = false -> isDisabled st = false -> not_completed fr ->
  let r := processFrame o st fr in
  isProcessing (fst r) = false /\ isDisabled (fst r) = false /\
  consecutiveOverruns (fst r) = consecutiveOverruns st /\
  intervalId (fst r) = intervalId st /\
  forall reason, ~ In (call (onDisabled reason)) (snd r).
Proof.
  intros Hp Hd Hn. cbv zeta.
  assert (Hskip : processFrame_begin o st fr = Skipped ->
                  isProcessing (fst (processFrame o st fr)) = false /\
                  isDisabled (fst (processFrame o st fr)) = false /\
                  consecutiveOverruns (fst (processFrame o st fr))
                  = consecutiveOverruns st /\
                  intervalId (fst (processFrame o st fr)) = intervalId st /\
                  forall reason,
                    ~ In (call (onDisabled reason)) (snd (processFrame o st fr))).
  { intros E. unfold processFrame. rewrite E. cbn [fst snd In]. tauto. }
  assert (Hready : video_ready fr \/ processFrame_begin o st fr = Skipped).
  { unfold processFrame_begin, video_ready. rewrite Hp, Hd. cbn [orb].
    destruct (video fr) as [v|]; [|right; reflexivity].
    destruct (Nat.ltb_spec (readyState v) 2) as [Hlt|Hge];
      [right; reflexivity|left; exists v; auto]. }
  destruct Hready as [Hv | Hs]; [|exact (Hskip Hs)].
  destruct (begin_runs o st fr Hp Hd Hv)
    as (st1 & Hp1 & Hd1 & Hc1 & Hi1 & Hcv & Hb).
  unfold processFrame. rewrite Hb.
  destruct (drawn fr) as [u|e] eqn:Edr.
  - unfold processFrame_resume.
    destruct (detected fr) as [d|e] eqn:Edet.
    + destruct (canvas st1) as [cv|]; [|contradiction].
      destruct (pixels fr) as [data|e] eqn:Epx.
      * exfalso. destruct Hn as [Hn | [[e H] | [[e H] | [e H]]]];
          first [exact (Hn Hv)|congruence].
      * cbn [catch_finally fst snd set_isProcessing isProcessing isDisabled
             consecutiveOverruns intervalId].
        repeat split; try assumption.
        intros reason. cbn [app In].
        intros [H | [H | [H | H]]]; try discriminate H.
        apply in_emit in H. discriminate H.
    + cbn [catch_finally fst snd set_isProcessing isProcessing isDisabled
           consecutiveOverruns intervalId].
      repeat split; try assumption.
      intros reason. cbn [app In].
      intros [H | [H | H]]; try discriminate H.
      apply in_emit in H. discriminate H.
  - cbn [fst snd set_isProcessing isProcessing isDisabled
         consecutiveOverruns intervalId].
    repeat split; try assumption.
    intros reason. cbn [In].
    intros [H | H]; try discriminate H.
    apply in_emit in H. discriminate H.
Qed.

Lemma run_app (o : Options) (ops1 ops2 : list Op) (st : State) :
  run o st (ops1 ++ ops2) =
  (fst (run o (fst (run o st ops1)) ops2),
   snd (run o st ops1) ++ snd (run o (fst (run o st ops1)) ops2)).
Proof.
  revert st. induction ops1 as [|op rest IH]; intros st; cbn [app run].
  - cbn [fst snd app]. destruct (run o st ops2); reflexivity.
  - destruct (step o st op) as [st1 eff1]. rewrite IH.
    destruct (run o st1 rest) as [st2 eff2]. cbn [fst snd].
    rewrite app_assoc. reflexivity.
Qed.

Lemma run_gap (o : Options) (gap : list Frame) (st : State) :
  isProcessing st = false -> isDisabled st = false ->
  Forall not_completed gap ->
  let r := run o st (map OpTick gap) in
  isProcessing (fst r) = false /\ isDisabled (fst r) = false /\
  consecutiveOverruns (fst r) = consecutiveOverruns st /\
  intervalId (fst r) = intervalId st /\
  forall reason, ~ In (call (onDisabled reason)) (snd r).
Proof.
  intros Hp Hd Hg. revert st Hp Hd. cbv zeta.
  induction Hg as [|fr gap Hfr Hg IH]; intros st Hp Hd; cbn [map run].
  - cbn [fst snd In]. tauto.
  - cbn [step].
    destruct (tick_not_completed o st fr Hp Hd Hfr)
      as (Hp1 & Hd1 & Hc1 & Hi1 & Hn1).
    destruct (processFrame o st fr) as [st1 eff1]. cbn [fst snd] in *.
    destruct (IH st1 Hp1 Hd1) as (Hp2 & Hd2 & Hc2 & Hi2 & Hn2).
    destruct (run o st1 (map OpTick gap)) as [st2 eff2]. cbn [fst snd] in *.
    repeat split; try congruence.
    intros reason H. apply in_app_or in H.
    destruct H as [H | H]; [exact (Hn1 reason H)|exact (Hn2 reason H)].
Qed.

(** Once disabled, nothing but [start] brings the scheduler back: ticks are
    dropped without any effect, and [stop] and [cleanup] leave the flag. *)
Lemma disabled_run (o : Options) (ops : list Op) (st : State) :
  isDisabled st = true -> intervalId st = None ->
  existsb is_start ops = false ->
  snd (run o st ops) = [] /\
  isDisabled (fst (run o st ops)) = true /\
  intervalId (fst (run o st ops)) = None.
Proof.
  revert st. induction ops as [|op rest IH]; intros st Hd Hi Hs; cbn [run].
  - cbn [fst snd]. auto.
  - cbn [existsb] in Hs. apply orb_false_iff in Hs. destruct Hs as [Hop Hrest].
    assert (Hstep : snd (step o st op) = [] /\
                    isDisabled (fst (step o st op)) = true /\
                    intervalId (fst (step o st op)) = None).
    { destruct op as [h| | |fr]; cbn [is_start] in Hop; try discriminate Hop;
        cbn [step fst snd stop cleanup set_intervalId set_canvas isDisabled
             intervalId]; auto.
      unfold processFrame, processFrame_begin. rewrite Hd, orb_true_r.
      cbn [fst snd]. auto. }
    destruct (step o st op) as [st1 eff1]. cbn [fst snd] in Hstep.
    destruct Hstep as (-> & Hd1 & Hi1).
    destruct (IH st1 Hd1 Hi1 Hrest) as (He & Hd2 & Hi2).
    destruct (run o st1 rest) as [st2 eff2]. cbn [fst snd app] in *. auto.
Qed.

Lemma run_cons (o : Options) (op : Op) (rest : list Op) (st : State) :
  run o st (op :: rest) =
  (fst (run o (fst (step o st op)) rest),
   snd (step o st op) ++ snd (run o (fst (step o st op)) rest)).
Proof.
  cbn [run]. destruct (step o st op) as [st1 eff1]. cbn [fst snd].
  destruct (run o st1 rest) as [st2 eff2]. reflexivity.
Qed.

(** An over-budget cycle followed by ticks that complete nothing. *)
Lemma run_streak (o : Options) (fr : Frame) (gap : list Frame) (st : State) :
  isProcessing st = false -> isDisabled st = false ->
  S (consecutiveOverruns st) < 3 ->
  over_budget fr -> Forall not_completed gap ->
  let r := run o st (map OpTick (fr :: gap)) in
  isProcessing (fst r) = false /\ isDisabled (fst r) = false /\
  consecutiveOverruns (fst r) = S (consecutiveOverruns st) /\
  intervalId (fst r) = intervalId st /\
  forall reason, ~ In (call (onDisabled reason)) (snd r).
Proof.
  intros Hp Hd Hlt Hfr Hg. cbv zeta. cbn [map]. rewrite run_cons.
  cbn [step fst snd].
  destruct (tick_over_budget o st fr Hp Hd Hfr) as (Hp1 & Hc1 & Hbelow & _).
  destruct (Hbelow Hlt) as (Hd1 & Hi1 & Hn1).
  destruct (run_gap o gap (fst (processFrame o st fr)) Hp1 Hd1 Hg)
    as (Hp2 & Hd2 & Hc2 & Hi2 & Hn2).
  repeat split; try congruence.
  intros reason H. apply in_app_or in H.
  destruct H as [H | H]; [exact (Hn1 reason H)|exact (Hn2 reason H)].
Qed.

(** C2.  Starting with the counter at 0, three completed cycles that each
    exceed the 200 ms budget, with only dropped ticks and failed cycles in
    between: the first two leave the scheduler enabled; the third disables
    it, clears the timer, emits the disabled event with its reason and no
    analysis event; after that whatever ticks, [stop] and [cleanup] follow
    have no effect at all while the scheduler stays disabled, and [start]
    enables it again. *)
Theorem overrun_breaker (o : Options) (st : State) (fr1 fr2 fr3 : Frame)
        (gap1 gap2 : list Frame) :
  has_onDisabled o = true ->
  isProcessing st = false -> isDisabled st = false ->
  consecutiveOverruns st = 0 ->
  over_budget fr1 -> Forall not_completed gap1 ->
  over_budget fr2 -> Forall not_completed gap2 ->
  over_budget fr3 ->
  let before := run o st (map OpTick ((fr1 :: gap1) ++ (fr2 :: gap2))) in
  let third := processFrame o (fst before) fr3 in
  (isDisabled (fst before) = false /\
   forall reason, ~ In (call (onDisabled reason)) (snd before)) /\
  isDisabled (fst third) = true /\
  intervalId (fst third) = None /\
  isProcessing (fst third) = false /\
  events (snd third) = [onDisabled "Processing time exceeded budget"] /\
  (forall s, ~ In (call (onAnalysis s)) (snd third)) /\
  (forall ops,
      existsb is_start ops = false ->
      snd (run o (fst third) ops) = [] /\
      isDisabled (fst (run o (fst third) ops)) = true) /\
  (forall h,
      isDisabled (start h (fst third)) = false /\
      consecutiveOverruns (start h (fst third)) = 0 /\
      intervalId (start h (fst third)) = Some h).
Proof.
  intros Ho Hp Hd Hc H1 Hg1 H2 Hg2 H3. cbv zeta.
  rewrite map_app, run_app.
  destruct (run_streak o fr1 gap1 st Hp Hd ltac:(lia) H1 Hg1)
    as (Hpa & Hda & Hca & Hia & Hna).
  set (sa := fst (run o st (map OpTick (fr1 :: gap1)))) in *.
  destruct (run_streak o fr2 gap2 sa Hpa Hda ltac:(lia) H2 Hg2)
    as (Hpb & Hdb & Hcb & Hib & Hnb).
  cbn [fst snd].
  set (sb := fst (run o sa (map OpTick (fr2 :: gap2)))) in *.
  destruct (tick_over_budget o sb fr3 Hpb Hdb H3) as (Hpc & Hcc & _ & Htrip).
  destruct (Htrip ltac:(lia)) as (Hdc & Hic & Hev).
  rewrite Ho in Hev.
  set (sc := fst (processFrame o sb fr3)) in *.
  split; [split; [exact Hdb|]|].
  { intros reason H. apply in_app_or in H.
    destruct H as [H | H]; [exact (Hna reason H)|exact (Hnb reason H)]. }
  split; [exact Hdc|]. split; [exact Hic|]. split; [exact Hpc|].
  split; [exact Hev|].
  split.
  { intros s H.
    assert (Hin : In (onAnalysis s) (events (snd (processFrame o sb fr3)))).
    { revert H. generalize (snd (processFrame o sb fr3)) as eff.
      induction eff as [|x eff IH]; cbn [In events]; [tauto|].
      intros [E | H]; [subst x; left; reflexivity|].
      destruct x; cbn [In]; auto. }
    rewrite Hev in Hin. destruct Hin as [E | []]. discriminate E. }
  split.
  { intros ops Hops.
    destruct (disabled_run o ops sc Hdc Hic Hops) as (A & B & _). auto. }
  intros h. unfold start. rewrite Hic.
  cbn [set_intervalId set_consecutiveOverruns set_isDisabled isDisabled
       consecutiveOverruns intervalId]. auto.
Qed.

Lemma overrun_breaker_witness :
  let before :=
    run all_callbacks (start 1 initial)
        (map OpTick ((frame_taking 250 :: [frame_detector_fails])
                     ++ (frame_taking 300 :: []))) in
  let third := processFrame all_callbacks (fst before) (frame_taking 201) in
  over_budget (frame_taking 201) /\
  isDisabled (fst before) = false /\
  isDisabled (fst third) = true /\ intervalId (fst third) = None /\
  events (snd third) = [onDisabled "Processing time exceeded budget"].
Proof.
  cbv zeta.
  assert (Hover : forall ms,
             PrimFloat.ltb MAX_PROCESSING_MS (elapsed (frame_taking ms)) = true ->
             over_budget (frame_taking ms)).
  { intros ms Hms. split; [|exact Hms].
    split; [exists (mkVideo 4 320 240); split; [reflexivity|cbn; lia]|].
    split; [reflexivity|]. split; eexists; reflexivity. }
  split; [apply Hover; reflexivity|].
  assert (Hgap : Forall not_completed [frame_detector_fails]).
  { constructor; [|constructor].
    right. right. left. eexists. reflexivity. }
  destruct (overrun_breaker all_callbacks (start 1 initial)
              (frame_taking 250) (frame_taking 300) (frame_taking 201)
              [frame_detector_fails] []
              eq_refl eq_refl eq_refl eq_refl
              (Hover 250%float eq_refl)
              Hgap
              (Hover 300%float eq_refl) (Forall_nil _)
              (Hover 201%float eq_refl))
    as ((A & _) & B & C & _ & D & _).
  repeat split; assumption.
Defined.

End Scheduler.


(* ================================================================== *)
(** * Further properties of the code *)

(* ------------------------------------------------------------------ *)
(** ** More on binary64 comparisons *)

Section FloatOrderMore.

Lemma ltb_leb (x y : float) :
  PrimFloat.ltb x y = true -> PrimFloat.leb x y = true.
Proof.
  rewrite FloatAxioms.ltb_spec, FloatAxioms.leb_spec. unfold SFltb, SFleb.
  destruct (SFcompare (Prim2SF x) (Prim2SF y)) as [[ | | ] | ]; congruence.
Qed.

Lemma ltb_not_nan (x y : float) :
  PrimFloat.ltb x y = true ->
  PrimFloat.is_nan x = false /\ PrimFloat.is_nan y = false.
Proof.
  unfold PrimFloat.is_nan.
  rewrite FloatAxioms.ltb_spec, !FloatAxioms.eqb_spec. unfold SFltb, SFeqb.
  destruct (Prim2SF x) as [sx|sx| |sx mx ex], (Prim2SF y) as [sy|sy| |sy my ey];
    cbn [SFcompare]; try discriminate; intros _;
    try destruct sx; try destruct sy; cbn [negb];
    rewrite ?Z.compare_refl, ?Pos.compare_cont_refl; auto.
Qed.

(** No number is below [-0.15] and above [0.15] at once. *)
Lemma small_thresholds_apart (a : float) :
  PrimFloat.ltb a (-0.15) = true -> PrimFloat.ltb 0.15 a = true -> False.
Proof.
  rewrite (FloatAxioms.ltb_spec a), (FloatAxioms.ltb_spec _ a).
  unfold SFltb. generalize (Prim2SF a) as sa.
  replace (Prim2SF (-0.15))
    with (S754_finite true 5404319552844595 (-55)) by (vm_compute; reflexivity).
  replace (Prim2SF 0.15)
    with (S754_finite false 5404319552844595 (-55)) by (vm_compute; reflexivity).
  intros sa. destruct sa as [s | s | | s m e]; try destruct s;
    cbn [SFcompare]; intros H1 H2; discriminate.
Qed.

Lemma ltb_irrefl (x : float) : PrimFloat.ltb x x = false.
Proof.
  rewrite FloatAxioms.ltb_spec. unfold SFltb.
  pose proof (SFcompare_antisym (Prim2SF x) (Prim2SF x)) as H.
  destruct (SFcompare (Prim2SF x) (Prim2SF x)) as [[ | | ] | ];
    try reflexivity. discriminate H.
Qed.

Lemma leb_refl (x : float) :
  PrimFloat.is_nan x = false -> PrimFloat.leb x x = true.
Proof. intros H. apply not_ltb_leb; auto using ltb_irrefl. Qed.

(** [Math.max(lo, x)] of a number [x] is a number at least [lo] and, when
    [lo <= hi] and [x <= hi], at most [hi]. *)
Lemma Math_max_bounds (lo hi x : float) :
  PrimFloat.is_nan lo = false -> PrimFloat.is_nan x = false ->
  PrimFloat.leb lo hi = true -> PrimFloat.leb x hi = true ->
  PrimFloat.classify lo <> PZero ->
  PrimFloat.is_nan (Math_max lo x) = false /\
  PrimFloat.leb lo (Math_max lo x) = true /\
  PrimFloat.leb (Math_max lo x) hi = true.
Proof.
  intros Hlo Hx Hlh Hxh Hc. unfold Math_max. rewrite Hlo, Hx. cbn [orb].
  destruct (PrimFloat.ltb x lo) eqn:E1.
  - repeat split; try assumption. apply leb_refl. exact Hlo.
  - assert (Hle : PrimFloat.leb lo x = true)
      by (apply not_ltb_leb; assumption).
    destruct (PrimFloat.ltb lo x); [repeat split; assumption|].
    destruct (PrimFloat.classify lo); try contradiction;
      repeat split; assumption.
Qed.

End FloatOrderMore.

Lemma Math_max_lower (lo x : float) :
  PrimFloat.is_nan lo = false -> PrimFloat.is_nan x = false ->
  PrimFloat.is_nan (Math_max lo x) = false /\
  PrimFloat.leb lo (Math_max lo x) = true.
Proof.
  intros Hlo Hx. unfold Math_max. rewrite Hlo, Hx. cbn [orb].
  destruct (PrimFloat.ltb x lo) eqn:E1.
  - split; [exact Hlo|apply leb_refl; exact Hlo].
  - assert (Hle : PrimFloat.leb lo x = true)
      by (apply not_ltb_leb; assumption).
    destruct (PrimFloat.ltb lo x); [split; assumption|].
    destruct (PrimFloat.classify lo); try (split; assumption);
      split; [exact Hlo|apply leb_refl; exact Hlo].
Qed.

Lemma Math_min_upper (hi x : float) :
  PrimFloat.is_nan hi = false -> PrimFloat.is_nan x = false ->
  PrimFloat.is_nan (Math_min hi x) = false /\
  PrimFloat.leb (Math_min hi x) hi = true.
Proof.
  intros Hhi Hx. unfold Math_min. rewrite Hhi, Hx. cbn [orb].
  destruct (PrimFloat.ltb hi x) eqn:E1.
  - split; [exact Hhi|apply leb_refl; exact Hhi].
  - assert (Hle : PrimFloat.leb x hi = true)
      by (apply not_ltb_leb; assumption).
    destruct (PrimFloat.ltb x hi); [split; assumption|].
    destruct (PrimFloat.classify hi); try (split; assumption);
      split; [exact Hhi|apply leb_refl; exact Hhi].
Qed.

Lemma Math_max_nan (lo x : float) :
  PrimFloat.is_nan x = true -> Math_max lo x = PrimFloat.nan.
Proof. intros H. unfold Math_max. rewrite H, orb_true_r. reflexivity. Qed.

Lemma Math_min_nan (hi x : float) :
  PrimFloat.is_nan x = true -> Math_min hi x = PrimFloat.nan.
Proof. intros H. unfold Math_min. rewrite H, orb_true_r. reflexivity. Qed.

(* ------------------------------------------------------------------ *)
(** ** More on the gaze estimator *)

Section GazeMore.

Import GazeEstimator Fixtures Notions.

(** X1.  [getNormalizedOffset] returns 0 when the two bounds are less than
    0.001 apart, and otherwise a value clamped to [[-1, 1]]: whatever the
    three positions, the result is NaN or lies between -1 and 1. *)
Theorem getNormalizedOffset_range (irisPos minPos maxPos : float) :
  let r := getNormalizedOffset irisPos minPos maxPos in
  (PrimFloat.ltb (Math_abs (maxPos - minPos)) 0.001 = true -> r = 0%float) /\
  (PrimFloat.is_nan r = true \/
   (PrimFloat.leb (-1) r = true /\ PrimFloat.leb r 1 = true)).
Proof.
  cbv zeta. unfold getNormalizedOffset.
  destruct (PrimFloat.ltb (Math_abs (maxPos - minPos)) 0.001) eqn:E.
  - split; [reflexivity|]. right. split; reflexivity.
  - split; [discriminate|].
    set (offset := ((irisPos - (minPos + maxPos) / 2)
                    / Math_abs (maxPos - minPos) * 2)%float).
    destruct (PrimFloat.is_nan offset) eqn:En.
    + left. rewrite (Math_min_nan 1 offset En). reflexivity.
    + right.
      destruct (Math_min_upper 1 offset eq_refl En) as [Hn Hle].
      destruct (Math_max_bounds (-1) 1 (Math_min 1 offset)
                  eq_refl Hn eq_refl Hle) as (_ & H1 & H2).
      * vm_compute. discriminate.
      * split; assumption.
Qed.

Lemma getNormalizedOffset_range_witness :
  PrimFloat.ltb (Math_abs (0.5 - 0.5)) 0.001 = true /\
  getNormalizedOffset 0.7 0.5 0.5 = 0%float.
Proof.
  split; [reflexivity|].
  exact (proj1 (getNormalizedOffset_range 0.7 0.5 0.5) eq_refl).
Defined.

(** The result of [analyzeGaze] on a full array, field by field, in terms of
    the four per-eye offsets. *)
Lemma analyzeGaze_full (lm : Face) :
  478 <= List.length lm ->
  exists g rh lh rv lv,
    analyzeGaze (Some lm) = Normal g /\
    getHorizontalOffset (at_index lm RIGHT_IRIS) (at_index lm RIGHT_EYE_INNER)
                        (at_index lm RIGHT_EYE_OUTER) = Normal rh /\
    getHorizontalOffset (at_index lm LEFT_IRIS) (at_index lm LEFT_EYE_INNER)
                        (at_index lm LEFT_EYE_OUTER) = Normal lh /\
    vertical_reading lm RightEye = Normal rv /\
    vertical_reading lm LeftEye = Normal lv /\
    horizontalGaze g
    = (if PrimFloat.ltb ((rh + lh) / 2) (-0.15) then LEFT
       else if PrimFloat.ltb 0.15 ((rh + lh) / 2) then RIGHT else CENTER) /\
    verticalGaze g
    = (if valid rv && valid lv
       then if PrimFloat.ltb ((offset rv + offset lv) / 2) (-0.25) then UP
            else if PrimFloat.ltb 0.25 ((offset rv + offset lv) / 2) then DOWN
                 else CENTER
       else CENTER) /\
    gazeDirection g = joined_direction (verticalGaze g) (horizontalGaze g) /\
    isLookingAway g
    = negb (label_eqb (horizontalGaze g) CENTER)
      || negb (label_eqb (verticalGaze g) CENTER) /\
    confidence g
    = Math_max 0 (1 - (Math_abs (rh - lh)
                       + (if valid rv && valid lv
                          then Math_abs (offset rv - offset lv) else 0))) /\
    details g <> None.
Proof.
  intros Hlen.
  destruct (getHorizontalOffset_total (at_index lm RIGHT_IRIS)
              (at_index lm RIGHT_EYE_INNER) (at_index lm RIGHT_EYE_OUTER))
    as [rh Hrh].
  destruct (getHorizontalOffset_total (at_index lm LEFT_IRIS)
              (at_index lm LEFT_EYE_INNER) (at_index lm LEFT_EYE_OUTER))
    as [lh Hlh].
  destruct (getVerticalOffset_total (iris_of lm RightEye) (top_of lm RightEye)
              (bottom_of lm RightEye) (eyeWidth_of lm RightEye)) as [rv Hrv].
  destruct (getVerticalOffset_total (iris_of lm LeftEye) (top_of lm LeftEye)
              (bottom_of lm LeftEye) (eyeWidth_of lm LeftEye)) as [lv Hlv].
  fold (vertical_reading lm RightEye) in Hrv.
  fold (vertical_reading lm LeftEye) in Hlv.
  assert (Hrv' := Hrv). assert (Hlv' := Hlv).
  unfold vertical_reading, iris_of, top_of, bottom_of, eyeWidth_of in Hrv', Hlv'.
  eexists. exists rh, lh, rv, lv.
  split.
  { unfold analyzeGaze.
    destruct (Nat.ltb_spec (List.length lm) 478) as [Hlt|_]; [lia|].
    cbv zeta. rewrite Hrh, Hlh. cbn [bind]. rewrite Hrv', Hlv'. cbn [bind].
    reflexivity. }
  cbn [verticalGaze horizontalGaze gazeDirection isLookingAway confidence
       details].
  do 4 (split; [assumption|]).
  split; [reflexivity|].
  split; [destruct (valid rv && valid lv); reflexivity|].
  split; [apply joined_direction_spec|].
  split; [reflexivity|].
  split; [destruct (valid rv && valid lv); reflexivity|discriminate].
Qed.

(** X2.  On a full array the horizontal gaze is LEFT when the average of the
    two horizontal offsets is below -0.15, RIGHT when it is above 0.15 and
    CENTER otherwise; neither direction is ever UNKNOWN; the combined
    direction is one of the nine strings CENTER, LEFT, RIGHT, UP, DOWN,
    UP_LEFT, UP_RIGHT, DOWN_LEFT, DOWN_RIGHT; and [isLookingAway] holds exactly
    when the combined direction is not CENTER. *)
Theorem gaze_direction_values (lm : Face) :
  478 <= List.length lm ->
  exists g rh lh,
    analyzeGaze (Some lm) = Normal g /\
    getHorizontalOffset (at_index lm RIGHT_IRIS) (at_index lm RIGHT_EYE_INNER)
                        (at_index lm RIGHT_EYE_OUTER) = Normal rh /\
    getHorizontalOffset (at_index lm LEFT_IRIS) (at_index lm LEFT_EYE_INNER)
                        (at_index lm LEFT_EYE_OUTER) = Normal lh /\
    (let avgHorizontal := ((rh + lh) / 2)%float in
     (PrimFloat.ltb avgHorizontal (-0.15) = true -> horizontalGaze g = LEFT) /\
     (PrimFloat.ltb 0.15 avgHorizontal = true -> horizontalGaze g = RIGHT) /\
     (PrimFloat.ltb avgHorizontal (-0.15) = false ->
      PrimFloat.ltb 0.15 avgHorizontal = false -> horizontalGaze g = CENTER)) /\
    In (horizontalGaze g) [LEFT; RIGHT; CENTER] /\
    In (verticalGaze g) [UP; DOWN; CENTER] /\
    In (gazeDirection g) directions /\
    (isLookingAway g = true <-> gazeDirection g <> "CENTER"%string).
Proof.
  intros Hlen.
  destruct (analyzeGaze_full lm Hlen)
    as (g & rh & lh & rv & lv & Hg & Hrh & Hlh & _ & _ & Hh & Hv & Hd & Ha & _).
  exists g, rh, lh.
  split; [exact Hg|]. split; [exact Hrh|]. split; [exact Hlh|].
  split.
  { cbv zeta. rewrite Hh. repeat split.
    - intros H. rewrite H. reflexivity.
    - intros H. destruct (PrimFloat.ltb ((rh + lh) / 2) (-0.15)) eqn:E.
      + exfalso. exact (small_thresholds_apart _ E H).
      + rewrite H. reflexivity.
    - intros H1 H2. rewrite H1, H2. reflexivity. }
  assert (HH : In (horizontalGaze g) [LEFT; RIGHT; CENTER]).
  { rewrite Hh.
    repeat match goal with
           | |- context [if ?b then _ else _] => destruct b
           end; cbn [In]; auto. }
  assert (HV : In (verticalGaze g) [UP; DOWN; CENTER]).
  { rewrite Hv.
    repeat match goal with
           | |- context [if ?b then _ else _] => destruct b
           end; cbn [In]; auto. }
  split; [exact HH|]. split; [exact HV|].
  rewrite Hd, Ha.
  destruct HH as [<- | [<- | [<- | []]]];
    destruct HV as [<- | [<- | [<- | []]]];
    (split; [vm_compute; auto 10|]);
    vm_compute; split; try (intros _; discriminate); intros H;
    try reflexivity; try discriminate H;
    try (exfalso; apply H; reflexivity).
Qed.

Lemma gaze_direction_values_witness :
  478 <= List.length face_collapsed /\
  exists g, analyzeGaze (Some face_collapsed) = Normal g /\
            horizontalGaze g = CENTER /\ isLookingAway g = false.
Proof.
  assert (Hlen : 478 <= List.length face_collapsed) by (vm_compute; apply le_n).
  split; [exact Hlen|].
  destruct (gaze_direction_values face_collapsed Hlen)
    as (g & rh & lh & Hg & Hrh & Hlh & (_ & _ & Hc) & _).
  exists g. split; [exact Hg|].
  injection Hrh as <-. injection Hlh as <-.
  split; [exact (Hc eq_refl eq_refl)|].
  vm_compute in Hg. injection Hg as <-. reflexivity.
Defined.

(** X3.  When a full array has no landmark at either iris index, the gaze is
    CENTER in both directions, the sample is not looking away, and the
    confidence is 1: missing irises read as a centred gaze, not as UNKNOWN. *)
Theorem gaze_without_irises (lm : Face) :
  478 <= List.length lm ->
  at_index lm RIGHT_IRIS = None -> at_index lm LEFT_IRIS = None ->
  exists g,
    analyzeGaze (Some lm) = Normal g /\
    horizontalGaze g = CENTER /\ verticalGaze g = CENTER /\
    gazeDirection g = "CENTER"%string /\ isLookingAway g = false /\
    confidence g = 1%float.
Proof.
  intros Hlen Hr Hl.
  destruct (analyzeGaze_full lm Hlen)
    as (g & rh & lh & rv & lv & Hg & Hrh & Hlh & Hrv & Hlv
        & Hh & Hv & Hd & Ha & Hc & _).
  rewrite Hr in Hrh. rewrite Hl in Hlh.
  unfold vertical_reading, iris_of in Hrv, Hlv. rewrite Hr in Hrv.
  cbn [getHorizontalOffset getVerticalOffset truthy_ref negb orb] in Hrh, Hlh, Hrv.
  injection Hrh as <-. injection Hlh as <-. injection Hrv as <-.
  cbn [valid andb] in Hv, Hc.
  assert (Hh' : horizontalGaze g = CENTER) by (rewrite Hh; reflexivity).
  exists g. split; [exact Hg|]. split; [exact Hh'|]. split; [exact Hv|].
  split; [rewrite Hd, Hh', Hv; reflexivity|].
  split; [rewrite Ha, Hh', Hv; reflexivity|].
  rewrite Hc. reflexivity.
Qed.

Lemma gaze_without_irises_witness :
  478 <= List.length (face_of [] None) /\
  exists g, analyzeGaze (Some (face_of [] None)) = Normal g /\
            gazeDirection g = "CENTER"%string /\ confidence g = 1%float.
Proof.
  assert (Hlen : 478 <= List.length (face_of [] None))
    by (vm_compute; apply le_n).
  split; [exact Hlen|].
  destruct (gaze_without_irises (face_of [] None) Hlen eq_refl eq_refl)
    as (g & Hg & _ & _ & Hd & _ & Hc).
  exists g. auto.
Defined.

(** X4.  Whatever the input, the confidence [analyzeGaze] reports is never a
    negative number: it is NaN or at least 0. *)
Theorem confidence_not_negative (landmarks : option Face) :
  exists g,
    analyzeGaze landmarks = Normal g /\
    (PrimFloat.is_nan (confidence g) = true \/
     PrimFloat.leb 0 (confidence g) = true).
Proof.
  destruct landmarks as [lm|].
  2:{ eexists. split; [reflexivity|]. right. reflexivity. }
  destruct (Nat.ltb_spec (List.length lm) 478) as [Hlt|Hge].
  - eexists. split.
    + unfold analyzeGaze.
      destruct (Nat.ltb_spec (List.length lm) 478) as [_|Hge]; [|lia].
      reflexivity.
    + right. reflexivity.
  - destruct (analyzeGaze_full lm Hge)
      as (g & rh & lh & rv & lv & Hg & _ & _ & _ & _ & _ & _ & _ & _ & Hc & _).
    exists g. split; [exact Hg|]. rewrite Hc.
    match goal with
    | |- context [Math_max 0 ?y] =>
        destruct (PrimFloat.is_nan y) eqn:En;
        [left; rewrite (Math_max_nan 0 y En); reflexivity
        |right; exact (proj2 (Math_max_lower 0 y eq_refl En))]
    end.
Qed.

End GazeMore.

(* ------------------------------------------------------------------ *)
(** ** More on the rotation estimator *)

Section RotationMore.

Import RotationEstimator Fixtures.

Lemma estimateRoll_present (lm : Face) (leftEye rightEye : Landmark) :
  at_index lm LEFT_EYE_OUTER = Some leftEye ->
  at_index lm RIGHT_EYE_OUTER = Some rightEye ->
  estimateRoll lm =
  Normal (if PrimFloat.eqb (euclid leftEye rightEye) 0 then LEVEL
          else if PrimFloat.ltb ROLL_THRESHOLD
                    ((y leftEye - y rightEye) / euclid leftEye rightEye)
               then TILTED_RIGHT
               else if PrimFloat.ltb
                         ((y leftEye - y rightEye) / euclid leftEye rightEye)
                         (- ROLL_THRESHOLD)
                    then TILTED_LEFT else LEVEL).
Proof.
  intros Hl Hr. unfold estimateRoll. rewrite Hl, Hr.
  cbn [truthy_ref negb orb]. rewrite distance_present. cbn [bind prop_y].
  repeat match goal with
         | |- context [if ?b then _ else _] => destruct b
         end; reflexivity.
Qed.

Lemma estimateRoll_missing (lm : Face) :
  at_index lm LEFT_EYE_OUTER = None \/ at_index lm RIGHT_EYE_OUTER = None ->
  estimateRoll lm = Normal LEVEL.
Proof.
  unfold estimateRoll.
  destruct (at_index lm LEFT_EYE_OUTER), (at_index lm RIGHT_EYE_OUTER);
    simpl; intros [H | H]; try discriminate H; reflexivity.
Qed.

(** X5.  On a full array the roll is read off
    [heightDiff = (leftEye.y - rightEye.y) / distance(leftEye, rightEye)] of
    the two outer eye corners: above 0.15 it is TILTED_RIGHT, below -0.15 it
    is TILTED_LEFT, otherwise LEVEL; a missing corner or a distance of zero
    gives LEVEL; and the roll is never UNKNOWN. *)
Theorem roll_classification (lm : Face) :
  478 <= List.length lm ->
  exists rot,
    analyzeRotation (Some lm) = Normal rot /\
    In (roll rot) [TILTED_LEFT; TILTED_RIGHT; LEVEL] /\
    (at_index lm LEFT_EYE_OUTER = None \/ at_index lm RIGHT_EYE_OUTER = None ->
     roll rot = LEVEL) /\
    (forall leftEye rightEye,
        at_index lm LEFT_EYE_OUTER = Some leftEye ->
        at_index lm RIGHT_EYE_OUTER = Some rightEye ->
        let eyeDistance := euclid leftEye rightEye in
        let heightDiff := ((y leftEye - y rightEye) / eyeDistance)%float in
        (PrimFloat.eqb eyeDistance 0 = true -> roll rot = LEVEL) /\
        (PrimFloat.eqb eyeDistance 0 = false ->
         (PrimFloat.ltb 0.15 heightDiff = true -> roll rot = TILTED_RIGHT) /\
         (PrimFloat.ltb heightDiff (-0.15) = true -> roll rot = TILTED_LEFT) /\
         (PrimFloat.ltb 0.15 heightDiff = false ->
          PrimFloat.ltb heightDiff (-0.15) = false -> roll rot = LEVEL))).
Proof.
  intros Hlen.
  destruct (analyzeRotation_full lm Hlen) as (yw & rl & Hy & Hr & Hrot).
  eexists. split; [exact Hrot|]. cbn [roll].
  split.
  { destruct (at_index lm LEFT_EYE_OUTER) as [l|] eqn:El;
      [destruct (at_index lm RIGHT_EYE_OUTER) as [r|] eqn:Er|].
    - rewrite (estimateRoll_present lm l r El Er) in Hr.
      injection Hr as <-.
      repeat match goal with
             | |- context [if ?b then _ else _] => destruct b
             end; cbn [In]; auto.
    - rewrite (estimateRoll_missing lm (or_intror Er)) in Hr.
      injection Hr as <-. cbn [In]. auto.
    - rewrite (estimateRoll_missing lm (or_introl El)) in Hr.
      injection Hr as <-. cbn [In]. auto. }
  split.
  { intros Hm. rewrite (estimateRoll_missing lm Hm) in Hr. congruence. }
  intros leftEye rightEye Hl Hre.
  rewrite (estimateRoll_present lm leftEye rightEye Hl Hre) in Hr.
  cbv zeta.
  change (- ROLL_THRESHOLD)%float with (-0.15)%float in Hr.
  change ROLL_THRESHOLD with 0.15%float in Hr.
  set (heightDiff := ((y leftEye - y rightEye) / euclid leftEye rightEye)%float)
    in *.
  split.
  { intros H0. rewrite H0 in Hr. congruence. }
  intros H0. rewrite H0 in Hr.
  split; [|split].
  - intros H. rewrite H in Hr. congruence.
  - intros H. destruct (PrimFloat.ltb 0.15 heightDiff) eqn:E.
    + exfalso. exact (small_thresholds_apart heightDiff H E).
    + rewrite H in Hr. congruence.
  - intros H1 H2. rewrite H1, H2 in Hr. congruence.
Qed.

Lemma roll_classification_witness :
  478 <= List.length face_ears_40_100 /\
  exists rot,
    analyzeRotation (Some face_ears_40_100) = Normal rot /\ roll rot = LEVEL.
Proof.
  assert (Hlen : 478 <= List.length face_ears_40_100)
    by (vm_compute; apply le_n).
  split; [exact Hlen|].
  destruct (roll_classification face_ears_40_100 Hlen)
    as (rot & Hrot & _ & _ & Hcls).
  exists rot. split; [exact Hrot|].
  destruct (Hcls (point 0 0) (point 0 0) eq_refl eq_refl) as [Hz _].
  exact (Hz eq_refl).
Defined.

End RotationMore.

(* ------------------------------------------------------------------ *)
(** ** More on the flag aggregator *)

Section FlagsMore.

Import FlagManager Fixtures Notions.

Lemma feed_app (st : FlagState) (l1 l2 : list (Z * Sample.Sample)) :
  feed st (l1 ++ l2) = feed (feed st l1) l2.
Proof.
  revert st. induction l1 as [|[now a] rest IH]; intros st; cbn [app feed];
    [reflexivity|apply IH].
Qed.

Lemma trailing_zeros_snoc (counts : list nat) (c : nat) :
  trailing_zeros (counts ++ [c])
  = if (c =? 0)%nat then S (trailing_zeros counts) else 0.
Proof.
  unfold trailing_zeros. rewrite rev_app_distr. cbn [rev app leading_zeros].
  destruct c; reflexivity.
Qed.

(** X6.  Along every sequence of samples fed from the initial state,
    [consecutiveMissing] is the number of samples with face count 0 at the end
    of the sequence, and FACE_MISSING is among the flags exactly when that
    number is at least 3. *)
Theorem missing_counts_trailing_zeros (inputs : list (Z * Sample.Sample)) :
  consecutiveMissing (feed createInitialState inputs)
  = trailing_zeros (face_counts inputs) /\
  (In FACE_MISSING (currentFlags (feed createInitialState inputs))
   <-> 3 <= trailing_zeros (face_counts inputs)).
Proof.
  induction inputs as [|[now a] rest IH] using rev_ind.
  - cbn. split; [reflexivity|]. split; [tauto|lia].
  - destruct IH as [IHc IHf].
    rewrite feed_app. cbn [feed]. unfold face_counts in *.
    rewrite map_app. cbn [map snd]. rewrite trailing_zeros_snoc.
    rewrite processAnalysis_missing, processAnalysis_flags, IHc.
    destruct (Sample.faceCount a) as [|[|n]]; cbn [Nat.ltb Nat.leb Nat.eqb].
    + split; [reflexivity|].
      change (match trailing_zeros
                      (map (fun i => Sample.faceCount (snd i)) rest) with
              | 0 | 1 => false | S (S _) => true end)
        with (3 <=? S (trailing_zeros
                         (map (fun i => Sample.faceCount (snd i)) rest)))%nat.
      destruct (Nat.leb_spec
                  3 (S (trailing_zeros
                          (map (fun i => Sample.faceCount (snd i)) rest))))
        as [Hle|Hlt].
      * split; [intros _; exact Hle|intros _; cbn [app In]; auto].
      * split; [|lia].
        destruct (PrimFloat.ltb (Sample.brightness a) 50); cbn [app In];
          intuition congruence.
    + split; [reflexivity|]. split; [|lia].
      repeat match goal with
             | |- context [if ?b then _ else _] => destruct b
             end; cbn [app In]; intuition congruence.
    + split; [reflexivity|]. split; [|lia].
      repeat match goal with
             | |- context [if ?b then _ else _] => destruct b
             end; cbn [app In]; intuition congruence.
Qed.

(** X7.  Which flag a sample raises: MULTIPLE_FACES exactly for more than one
    face; FACE_MISSING exactly for no face with the incremented counter at 3
    or more; FACE_ROTATED exactly for one face that is rotated, whether or not
    it looks away; GAZE_AWAY exactly for one face that is not rotated and
    looks away; FACE_OK exactly for one face that does neither.  The stored
    gaze direction is the sample's when GAZE_AWAY is raised and null
    otherwise. *)
Theorem flag_conditions (now : Z) (st : FlagState) (a : Sample.Sample) :
  let st' := processAnalysis now st a in
  (In MULTIPLE_FACES (currentFlags st') <-> 1 < Sample.faceCount a) /\
  (In FACE_MISSING (currentFlags st')
   <-> Sample.faceCount a = 0 /\ 3 <= S (consecutiveMissing st)) /\
  (In FACE_ROTATED (currentFlags st')
   <-> Sample.faceCount a = 1 /\ truthy_bool (Sample.isRotated a) = true) /\
  (In GAZE_AWAY (currentFlags st')
   <-> Sample.faceCount a = 1 /\ truthy_bool (Sample.isRotated a) = false /\
       truthy_bool (Sample.isLookingAway a) = true) /\
  (In FACE_OK (currentFlags st')
   <-> Sample.faceCount a = 1 /\ truthy_bool (Sample.isRotated a) = false /\
       truthy_bool (Sample.isLookingAway a) = false) /\
  ((In GAZE_AWAY (currentFlags st') ->
    gazeDirection st' = Sample.gazeDirection a) /\
   (~ In GAZE_AWAY (currentFlags st') -> gazeDirection st' = JNull)).
Proof.
  cbv zeta. rewrite processAnalysis_flags.
  assert (Hg : gazeDirection (processAnalysis now st a)
               = if (1 <? Sample.faceCount a)%nat then JNull
                 else if (Sample.faceCount a =? 0)%nat then JNull
                      else if truthy_bool (Sample.isRotated a) then JNull
                           else if truthy_bool (Sample.isLookingAway a)
                                then Sample.gazeDirection a else JNull).
  { unfold processAnalysis.
    destruct (1 <? Sample.faceCount a)%nat;
      [|destruct (Sample.faceCount a =? 0)%nat;
        [|destruct (truthy_bool (Sample.isRotated a));
          [|destruct (truthy_bool (Sample.isLookingAway a))]]];
      reflexivity. }
  rewrite Hg. clear Hg.
  destruct (Nat.ltb_spec 1 (Sample.faceCount a)) as [H1|H1];
    [|destruct (Nat.eqb_spec (Sample.faceCount a) 0) as [H0|H0];
      [destruct (Nat.leb_spec 3 (S (consecutiveMissing st))) as [H3|H3]
      |destruct (truthy_bool (Sample.isRotated a));
       [|destruct (truthy_bool (Sample.isLookingAway a))]]];
    destruct (PrimFloat.ltb (Sample.brightness a) 50); cbn [app In];
    repeat split; intros; try lia; try congruence; try tauto;
    repeat match goal with
           | H : _ \/ _ |- _ => destruct H
           | H : _ /\ _ |- _ => destruct H
           | H : False |- _ => destruct H
           end; try lia; try congruence; try discriminate; auto;
    try (exfalso; match goal with H : ~ _ |- _ => apply H end; auto).
Qed.

Lemma processAnalysis_canonical (now : Z) (st : FlagState) (a : Sample.Sample) :
  In (currentFlags (processAnalysis now st a)) canonical_flags.
Proof.
  rewrite processAnalysis_flags.
  repeat match goal with
         | |- context [if ?b then _ else _] => destruct b
         end; vm_compute; auto 20.
Qed.

Lemma feed_canonical (inputs : list (Z * Sample.Sample)) :
  In (currentFlags (feed createInitialState inputs)) canonical_flags.
Proof.
  destruct inputs as [|[now a] rest] using rev_ind.
  - vm_compute. auto.
  - rewrite feed_app. cbn [feed]. apply processAnalysis_canonical.
Qed.

(** Two arrays that [processAnalysis] can build and that [arraysEqual]
    accepts are the same array. *)
Lemma canonical_arraysEqual (a b : list Flag) :
  In a canonical_flags -> In b canonical_flags ->
  arraysEqual a b = true -> a = b.
Proof.
  unfold canonical_flags. cbn [flat_map map status_flags app In].
  intros Ha Hb.
  repeat match goal with
         | H : _ \/ _ |- _ => destruct H as [H | H]
         | H : False |- _ => destruct H
         end; subst a b; intros H; try reflexivity;
    vm_compute in H; discriminate H.
Qed.

Lemma newest_snoc {A : Type} (h : list A) (e : A) : newest (h ++ [e]) = Some e.
Proof.
  unfold newest. rewrite length_app. cbn [List.length].
  replace (List.length h + 1 - 1) with (List.length h) by lia.
  rewrite nth_error_app2 by lia. rewrite Nat.sub_diag. reflexivity.
Qed.

(** X8.  Along every sequence of samples fed from the initial state, the
    newest history entry carries the current flags; as long as the history is
    empty, there are no current flags. *)
Theorem newest_entry_is_current (inputs : list (Z * Sample.Sample)) :
  let st := feed createInitialState inputs in
  match newest (history st) with
  | Some entry => flags entry = currentFlags st
  | None => currentFlags st = []
  end.
Proof.
  cbv zeta. induction inputs as [|[now a] rest IH] using rev_ind.
  - reflexivity.
  - rewrite feed_app. cbn [feed].
    set (st := feed createInitialState rest) in *.
    pose proof (feed_canonical rest) as Hc. fold st in Hc.
    pose proof (processAnalysis_canonical now st a) as Hc'.
    destruct (processAnalysis_history now st a) as [Hshape _].
    assert (Hsame : history (processAnalysis now st a) = history st ->
                    arraysEqual (currentFlags st)
                                (currentFlags (processAnalysis now st a)) = true
                    \/ exists e, history (processAnalysis now st a)
                                 = slice_last 19 (history st) ++ [e] /\
                                 flags e = currentFlags (processAnalysis now st a)).
    { intros _. unfold processAnalysis.
      destruct (1 <? Sample.faceCount a)%nat;
        [|destruct (Sample.faceCount a =? 0)%nat;
          [|destruct (truthy_bool (Sample.isRotated a));
            [|destruct (truthy_bool (Sample.isLookingAway a))]]];
        cbv zeta; cbn [currentFlags gazeDirection history];
        (match goal with
         | |- context [arraysEqual ?x ?y] => destruct (arraysEqual x y)
         end); cbn [negb orb]; auto;
        right; eexists; split; reflexivity. }
    destruct Hshape as [E | (e & E & Hf & _)].
    + destruct (Hsame E) as [Heq | (e & E' & Hf)].
      * rewrite E.
        rewrite <- (canonical_arraysEqual _ _ Hc Hc' Heq). exact IH.
      * rewrite E', newest_snoc. exact Hf.
    + rewrite E, newest_snoc. exact Hf.
Qed.

(** X9.  [arraysEqual(a, b)] holds exactly when every flag occurs as often in
    [a] as in [b]: the order is ignored and duplicates count. *)
Theorem arraysEqual_counts (a b : list Flag) :
  arraysEqual a b = true
  <-> forall f, count_occ flag_eq_dec a f = count_occ flag_eq_dec b f.
Proof.
  rewrite arraysEqual_Permutation.
  apply (Permutation_count_occ flag_eq_dec).
Qed.

End FlagsMore.

(* ------------------------------------------------------------------ *)
(** ** The scheduler's samples in the aggregator *)

Section Pipeline.

Import FlagManager FrameProcessor Fixtures Notions.

(** X10.  Fed to [processAnalysis], a sample that the scheduler emitted never
    raises FACE_ROTATED or GAZE_AWAY and leaves the stored gaze direction
    null; a single face is always reported as FACE_OK. *)
Theorem scheduler_sample_flags (o : Options) (st : State) (fr : Frame)
        (s : Sample.Sample) (now : Z) (fs : FlagState) :
  In (call (onAnalysis s)) (snd (processFrame o st fr)) ->
  let fs' := processAnalysis now fs s in
  ~ In FACE_ROTATED (currentFlags fs') /\
  ~ In GAZE_AWAY (currentFlags fs') /\
  gazeDirection fs' = JNull /\
  (Sample.faceCount s = 1 -> In FACE_OK (currentFlags fs')).
Proof.
  intros Hin. cbv zeta.
  destruct (processFrame_analysis o st fr s Hin) as (d & data & _ & _ & ->).
  split; [|split; [|split]].
  - rewrite processAnalysis_flags. cbn [Sample.isRotated Sample.isLookingAway
                                        truthy_bool].
    repeat match goal with
           | |- context [if ?b then _ else _] => destruct b
           end; cbn [app In]; intuition congruence.
  - rewrite processAnalysis_flags. cbn [Sample.isRotated Sample.isLookingAway
                                        truthy_bool].
    repeat match goal with
           | |- context [if ?b then _ else _] => destruct b
           end; cbn [app In]; intuition congruence.
  - unfold processAnalysis.
    cbn [Sample.isRotated Sample.isLookingAway truthy_bool Sample.faceCount].
    destruct (1 <? count d)%nat; [|destruct (count d =? 0)%nat]; reflexivity.
  - cbn [Sample.faceCount]. intros H1.
    rewrite processAnalysis_flags.
    cbn [Sample.isRotated Sample.isLookingAway truthy_bool Sample.faceCount].
    rewrite H1. cbn [Nat.ltb Nat.leb Nat.eqb app In]. auto.
Qed.

Lemma scheduler_sample_flags_witness :
  In (call (onAnalysis (scheduler_sample 1 255 30)))
     (snd (processFrame all_callbacks (start 1 initial) (frame_taking 30))) /\
  currentFlags (processAnalysis 1000 createInitialState
                                (scheduler_sample 1 255 30)) = [FACE_OK].
Proof.
  assert (Hin : In (call (onAnalysis (scheduler_sample 1 255 30)))
                   (snd (processFrame all_callbacks (start 1 initial)
                                      (frame_taking 30))))
    by (vm_compute; do 3 right; left; reflexivity).
  split; [exact Hin|].
  pose proof (scheduler_sample_flags _ _ _ _ 1000%Z createInitialState Hin)
    as (_ & _ & _ & _).
  reflexivity.
Defined.

(** One step of the two variants on a sample without rotation or gaze. *)
Lemma variants_step (now : Z) (s1 : FlagState)
      (s2 : FlagManagerBasic.FlagState) (a : Sample.Sample) :
  truthy_bool (Sample.isRotated a) = false ->
  truthy_bool (Sample.isLookingAway a) = false ->
  currentFlags s1 = FlagManagerBasic.currentFlags s2 ->
  consecutiveMissing s1 = FlagManagerBasic.consecutiveMissing s2 ->
  history_flags (history s1) = history_flags_basic (FlagManagerBasic.history s2) ->
  let s1' := processAnalysis now s1 a in
  let s2' := FlagManagerBasic.processAnalysis now s2 a in
  currentFlags s1' = FlagManagerBasic.currentFlags s2' /\
  consecutiveMissing s1' = FlagManagerBasic.consecutiveMissing s2' /\
  history_flags (history s1')
  = history_flags_basic (FlagManagerBasic.history s2') /\
  lastUpdate s1' = FlagManagerBasic.lastUpdate s2' /\
  FlagManagerBasic.faceCount s2' = Sample.faceCount a.
Proof.
  intros Hr Hl Hf Hc Hh. cbv zeta.
  unfold processAnalysis, FlagManagerBasic.processAnalysis.
  rewrite Hr, Hl, Hf, Hc.
  assert (Hslice : history_flags (slice_last 19 (history s1))
                   = history_flags_basic
                       (slice_last 19 (FlagManagerBasic.history s2))).
  { unfold slice_last, history_flags, history_flags_basic in *.
    rewrite <- !skipn_map.
    rewrite <- (length_map (fun e => (timestamp e, flags e)) (history s1)).
    rewrite <- (length_map
                  (fun e => (FlagManagerBasic.timestamp e,
                             FlagManagerBasic.flags e))
                  (FlagManagerBasic.history s2)).
    rewrite Hh. reflexivity. }
  destruct (1 <? Sample.faceCount a)%nat;
    [|destruct (Sample.faceCount a =? 0)%nat];
    cbv zeta; cbn [andb]; rewrite orb_false_r;
    cbn [currentFlags FlagManagerBasic.currentFlags consecutiveMissing
         FlagManagerBasic.consecutiveMissing history FlagManagerBasic.history
         lastUpdate FlagManagerBasic.lastUpdate FlagManagerBasic.faceCount];
    (match goal with
     | |- context [arraysEqual ?x ?y] => destruct (arraysEqual x y)
     end); cbn [negb];
    repeat split; try assumption;
    unfold history_flags, history_flags_basic in *;
    rewrite !map_app; cbn [map timestamp flags FlagManagerBasic.timestamp
                           FlagManagerBasic.flags];
    rewrite Hslice; reflexivity.
Qed.

(** X11.  On samples that carry no rotation and no gaze, as the scheduler's
    are, the variant that tracks gaze and the variant that does not go through
    the same flags, the same missing-face counter, the same update time and
    histories with the same timestamps and flags. *)
Theorem variants_agree (inputs : list (Z * Sample.Sample)) :
  Forall (fun i => truthy_bool (Sample.isRotated (snd i)) = false /\
                   truthy_bool (Sample.isLookingAway (snd i)) = false) inputs ->
  let s1 := feed createInitialState inputs in
  let s2 := FlagManagerBasic.feed FlagManagerBasic.createInitialState inputs in
  currentFlags s1 = FlagManagerBasic.currentFlags s2 /\
  consecutiveMissing s1 = FlagManagerBasic.consecutiveMissing s2 /\
  history_flags (history s1) = history_flags_basic (FlagManagerBasic.history s2) /\
  lastUpdate s1 = FlagManagerBasic.lastUpdate s2.
Proof.
  intros Hall. cbv zeta.
  assert (Hgen : forall s1 s2,
             currentFlags s1 = FlagManagerBasic.currentFlags s2 ->
             consecutiveMissing s1 = FlagManagerBasic.consecutiveMissing s2 ->
             history_flags (history s1)
             = history_flags_basic (FlagManagerBasic.history s2) ->
             lastUpdate s1 = FlagManagerBasic.lastUpdate s2 ->
             currentFlags (feed s1 inputs)
             = FlagManagerBasic.currentFlags (FlagManagerBasic.feed s2 inputs) /\
             consecutiveMissing (feed s1 inputs)
             = FlagManagerBasic.consecutiveMissing
                 (FlagManagerBasic.feed s2 inputs) /\
             history_flags (history (feed s1 inputs))
             = history_flags_basic
                 (FlagManagerBasic.history (FlagManagerBasic.feed s2 inputs)) /\
             lastUpdate (feed s1 inputs)
             = FlagManagerBasic.lastUpdate (FlagManagerBasic.feed s2 inputs)).
  { induction Hall as [|[now a] rest [Hr Hl] Hrest IH]; intros s1 s2 Hf Hc Hh Hu;
      cbn [feed FlagManagerBasic.feed]; [auto|].
    cbn [snd] in Hr, Hl.
    destruct (variants_step now s1 s2 a Hr Hl Hf Hc Hh)
      as (Hf' & Hc' & Hh' & Hu' & _).
    apply IH; assumption. }
  apply Hgen; reflexivity.
Qed.

Lemma variants_agree_witness :
  let inputs := [(1000, scheduler_sample 1 255 30);
                 (1500, scheduler_sample 0 20 30);
                 (2000, scheduler_sample 2 255 30)]%Z in
  currentFlags (feed createInitialState inputs)
  = FlagManagerBasic.currentFlags
      (FlagManagerBasic.feed FlagManagerBasic.createInitialState inputs) /\
  List.length (history (feed createInitialState inputs)) = 3.
Proof.
  cbv zeta. split; [|reflexivity].
  apply (variants_agree
           [(1000, scheduler_sample 1 255 30);
            (1500, scheduler_sample 0 20 30);
            (2000, scheduler_sample 2 255 30)]%Z).
  repeat constructor.
Defined.

End Pipeline.

(* ------------------------------------------------------------------ *)
(** ** More on the frame scheduler *)

Section SchedulerMore.

Import FrameProcessor Fixtures Notions.



Lemma data_at_sampled (d1 d2 : list Byte.byte) (q r : nat) :
  (forall k, sampled k -> nth_error d1 k = nth_error d2 k) ->
  r < 3 -> data_at d1 (40 * q + r) = data_at d2 (40 * q + r).
Proof.
  intros H Hr. unfold data_at. rewrite (H (40 * q + r)); [reflexivity|].
  unfold sampled.
  rewrite Nat.add_comm, Nat.mul_comm, Nat.Div0.mod_add.
  rewrite Nat.mod_small; lia.
Qed.

Lemma brightness_loop_sampled (d1 d2 : list Byte.byte) :
  List.length d1 = List.length d2 ->
  (forall k, sampled k -> nth_error d1 k = nth_error d2 k) ->
  forall fuel q total n,
    brightness_loop fuel d1 (40 * q) total n
    = brightness_loop fuel d2 (40 * q) total n.
Proof.
  intros Hlen H. induction fuel as [|fuel IH]; intros q total n;
    cbn [brightness_loop]; [reflexivity|].
  rewrite Hlen.
  destruct (40 * q <? List.length d2)%nat; [|reflexivity].
  pose proof (data_at_sampled d1 d2 q 0 H ltac:(lia)) as H0.
  pose proof (data_at_sampled d1 d2 q 1 H ltac:(lia)) as H1.
  pose proof (data_at_sampled d1 d2 q 2 H ltac:(lia)) as H2.
  rewrite Nat.add_0_r in H0. rewrite H0, H1, H2.
  replace (40 * q + 4 * sampleStep) with (40 * S q)
    by (unfold sampleStep; lia).
  apply IH.
Qed.

(** X13.  [calculateBrightness] reads the red, green and blue bytes of every
    tenth pixel and nothing else: two buffers of the same length that agree on
    those bytes have the same brightness, whatever their other pixels and
    their alpha bytes are; and an empty buffer has brightness 0. *)
Theorem brightness_reads_samples_only (d1 d2 : list Byte.byte) :
  List.length d1 = List.length d2 ->
  (forall k, sampled k -> nth_error d1 k = nth_error d2 k) ->
  calculateBrightness d1 = calculateBrightness d2 /\
  calculateBrightness [] = 0%float.
Proof.
  intros Hlen H. split; [|reflexivity].
  unfold calculateBrightness. rewrite Hlen.
  pose proof (brightness_loop_sampled d1 d2 Hlen H (List.length d2) 0 0%float 0)
    as E.
  change (40 * 0) with 0 in E. rewrite E. reflexivity.
Qed.

Lemma brightness_reads_samples_only_witness :
  calculateBrightness [Byte.x10; Byte.x20; Byte.x30; Byte.x00; Byte.x01]
  = calculateBrightness [Byte.x10; Byte.x20; Byte.x30; Byte.xff; Byte.xfe].
Proof.
  apply (brightness_reads_samples_only
           [Byte.x10; Byte.x20; Byte.x30; Byte.x00; Byte.x01]
           [Byte.x10; Byte.x20; Byte.x30; Byte.xff; Byte.xfe] eq_refl).
  intros [|[|[|[|[|k]]]]] Hk; try reflexivity;
    unfold sampled in Hk; cbn in Hk; lia.
Defined.

(** The part after the [await] always ends the cycle, and what it does to the
    counter and the disabled flag. *)
Lemma resume_outcome (o : Options) (st : State) (fr : Frame) :
  isDisabled st = false -> consecutiveOverruns st < 3 ->
  let st' := fst (processFrame_resume o st fr) in
  isProcessing st' = false /\
  ((isDisabled st' = false /\ consecutiveOverruns st' < 3 /\
    intervalId st' = intervalId st) \/
   (isDisabled st' = true /\ consecutiveOverruns st' = 3 /\
    intervalId st' = None)).
Proof.
  intros Hd Hc. cbv zeta. unfold processFrame_resume.
  destruct (detected fr) as [d|e]; [|cbn; auto].
  destruct (canvas st); [|cbn; auto].
  destruct (pixels fr) as [data|e]; [|cbn; auto].
  destruct (PrimFloat.ltb MAX_PROCESSING_MS (endTime fr - startTime fr)).
  - change MAX_CONSECUTIVE_OVERRUNS with 3.
    cbn [consecutiveOverruns set_consecutiveOverruns].
    destruct (Nat.leb_spec 3 (S (consecutiveOverruns st))) as [Hle|Hlt]; cbn.
    + split; [reflexivity|]. right. repeat split; auto; try lia.
    + split; [reflexivity|]. left. repeat split; auto; try lia.
  - cbn. split; [reflexivity|]. left. repeat split; auto; try lia.
Qed.

Lemma consistent_step (o : Options) (sys : Interleaved.System)
      (op : Interleaved.Op) :
  consistent sys -> consistent (fst (Interleaved.step o sys op)).
Proof.
  destruct sys as [st fl]. unfold consistent. cbn [Interleaved.vars
    Interleaved.inFlight]. intros Hinv.
  pose proof Hinv as (Hlen & Hproc & Hdis & Hen).
  destruct op as [h| | |fr|i]; cbn [Interleaved.step Interleaved.vars
    Interleaved.inFlight fst].
  - unfold start. destruct (intervalId st) eqn:Ei;
      cbn [Interleaved.vars Interleaved.inFlight].
    + split; [exact Hlen|]. split; [exact Hproc|].
      split; [|exact Hen].
      intros H. destruct (Hdis H) as (A & _). discriminate A.
    + cbn. repeat split; try tauto; try lia; try discriminate;
        try (apply Hproc).
  - cbn. repeat split; try tauto; try (apply Hproc);
      intros H; destruct (Hdis H) as (A & B & C); auto.
  - cbn. repeat split; try tauto; try (apply Hproc);
      intros H; destruct (Hdis H) as (A & B & C); auto.
  - unfold processFrame_begin.
    destruct (isProcessing st) eqn:Ep; cbn [orb fst Interleaved.vars
      Interleaved.inFlight]; [rewrite Ep; exact Hinv|].
    destruct (isDisabled st) eqn:Ed; cbn [fst Interleaved.vars
      Interleaved.inFlight]; [rewrite Ep, Ed; exact Hinv|].
    assert (Hfl : fl = []).
    { destruct fl as [|x rest]; [reflexivity|].
      assert (Hne : x :: rest <> []) by discriminate.
      apply Hproc in Hne. discriminate Hne. }
    subst fl.
    destruct (video fr) as [v|]; cbn [fst Interleaved.vars
      Interleaved.inFlight]; [|rewrite Ep, Ed; exact Hinv].
    destruct (readyState v <? 2)%nat; cbn [fst Interleaved.vars
      Interleaved.inFlight]; [rewrite Ep, Ed; exact Hinv|].
    specialize (Hen eq_refl).
    destruct (drawn fr) as [u|e];
      destruct (canvas (set_isProcessing true st)); cbn;
      repeat split; try lia; try discriminate; try tauto; auto;
      intros; congruence.
  - destruct (nth_error fl i) as [fr|] eqn:En;
      cbn [fst Interleaved.vars Interleaved.inFlight]; [|exact Hinv].
    assert (Hfl : fl = [fr] /\ i = 0).
    { destruct fl as [|x [|y rest]]; cbn [List.length] in Hlen; try lia.
      - destruct i; discriminate En.
      - destruct i as [|[|j]]; cbn in En; try discriminate En.
        injection En as <-. auto. }
    destruct Hfl as [-> ->].
    assert (Hd : isDisabled st = false).
    { destruct (isDisabled st) eqn:Ed; [|reflexivity].
      destruct (Hdis eq_refl) as (_ & B & _). discriminate B. }
    destruct (resume_outcome o st fr Hd (Hen Hd)) as (Hp' & Hcase).
    destruct (processFrame_resume o st fr) as [st' eff].
    cbn [fst Interleaved.vars Interleaved.inFlight Interleaved.remove_nth] in *.
    split; [cbn; lia|].
    split; [rewrite Hp'; split; [discriminate|intros H; contradiction]|].
    destruct Hcase as [(A & B & C) | (A & B & C)]; split;
      intros H; try congruence; auto.
Qed.

Lemma consistent_run (o : Options) (ops : list Interleaved.Op)
      (sys : Interleaved.System) :
  consistent sys -> consistent (fst (Interleaved.run o sys ops)).
Proof.
  revert sys. induction ops as [|op rest IH]; intros sys H;
    cbn [Interleaved.run]; [exact H|].
  pose proof (consistent_step o sys op H) as H1.
  destruct (Interleaved.step o sys op) as [sys1 eff1]. cbn [fst] in H1.
  specialize (IH sys1 H1).
  destruct (Interleaved.run o sys1 rest) as [sys2 eff2]. exact IH.
Qed.

(** X14.  Whatever calls of [start], [stop], [cleanup], timer ticks and
    detector answers follow one another from creation on: at most one cycle is
    in flight, and [isProcessing] is true exactly while one is; a disabled
    scheduler has no timer, no cycle in flight and a counter of 3; an enabled
    one has a counter below 3; and [getStatus] never reports running and
    disabled together. *)
Theorem scheduler_consistent (o : Options) (ops : list Interleaved.Op) :
  let sys := fst (Interleaved.run o Interleaved.initial ops) in
  consistent sys /\
  (st_isRunning (getStatus (Interleaved.vars sys)) = true ->
   st_isDisabled (getStatus (Interleaved.vars sys)) = false).
Proof.
  cbv zeta.
  assert (H : consistent (fst (Interleaved.run o Interleaved.initial ops))).
  { apply consistent_run. unfold consistent. cbn.
    repeat split; try lia; try discriminate; try tauto. }
  split; [exact H|].
  destruct H as (_ & _ & Hdis & _).
  cbn [getStatus st_isRunning st_isDisabled].
  destruct (isDisabled
              (Interleaved.vars (fst (Interleaved.run o Interleaved.initial ops))))
    eqn:Ed; [|reflexivity].
  destruct (Hdis eq_refl) as (Hi & _). rewrite Hi. discriminate.
Qed.

(** X15.  A call placed between the two halves of a cycle: after [stop] the
    cycle still reports exactly what it would have reported; after [cleanup]
    the canvas is gone, so a cycle whose detector answered ends in the catch
    block with a TypeError for [onError], no analysis event, the counter
    unchanged and [isProcessing] false. *)
Theorem calls_during_a_cycle (o : Options) (st : State) (fr : Frame)
        (d : Detection) :
  detected fr = Normal d ->
  snd (processFrame_resume o (stop st) fr) = snd (processFrame_resume o st fr) /\
  let r := processFrame_resume o (cleanup st) fr in
  events (snd r)
  = (if has_onError o
     then [onError (TypeError "Cannot read properties of null (reading 'width')")]
     else []) /\
  consecutiveOverruns (fst r) = consecutiveOverruns st /\
  isProcessing (fst r) = false.
Proof.
  intros Hdet. split.
  - unfold processFrame_resume. rewrite Hdet.
    cbn [stop set_intervalId canvas consecutiveOverruns].
    destruct (canvas st); [|reflexivity].
    destruct (pixels fr); [|reflexivity].
    destruct (PrimFloat.ltb MAX_PROCESSING_MS (endTime fr - startTime fr));
      [|reflexivity].
    cbn [set_consecutiveOverruns consecutiveOverruns].
    destruct (MAX_CONSECUTIVE_OVERRUNS <=? S (consecutiveOverruns st))%nat;
      reflexivity.
  - cbv zeta. unfold processFrame_resume. rewrite Hdet.
    cbn [cleanup stop set_canvas set_intervalId canvas catch_finally fst snd
         set_isProcessing consecutiveOverruns isProcessing].
    split; [apply events_emit|]. split; reflexivity.
Qed.

Lemma calls_during_a_cycle_witness :
  detected (frame_taking 30)
  = Normal (mkDetection [face_ears_40_100] 1) /\
  events (snd (processFrame_resume all_callbacks
                 (cleanup (start 1 initial)) (frame_taking 30)))
  = [onError (TypeError "Cannot read properties of null (reading 'width')")].
Proof.
  split; [reflexivity|].
  exact (proj1 (proj2 (calls_during_a_cycle all_callbacks (start 1 initial)
                         (frame_taking 30) _ eq_refl))).
Defined.

(** X16.  [start] while the timer runs changes nothing, so two calls in a
    row are one and the counter is not reset by the second; [stop] and
    [cleanup] twice are [stop] and [cleanup] once; and [cleanup] before any
    [start] leaves the scheduler as created. *)
Theorem lifecycle_idempotent (st : State) (h1 h2 : positive) :
  start h2 (start h1 st) = start h1 st /\
  (intervalId st <> None -> start h1 st = st) /\
  stop (stop st) = stop st /\
  cleanup (cleanup st) = cleanup st /\
  cleanup initial = initial /\
  stop (start h1 (stop st))
  = set_consecutiveOverruns 0 (set_isDisabled false (stop st)).
Proof.
  unfold start, stop, cleanup, set_intervalId, set_canvas,
    set_consecutiveOverruns, set_isDisabled.
  destruct st as [i p c d cv]. cbn.
  destruct i; cbn; repeat split; try reflexivity; intros H; congruence.
Qed.




End SchedulerMore.

(* ------------------------------------------------------------------ *)
(** ** The detector singleton *)

Section Detector.

Import FaceAnalyzer Notions.

Lemma waiting_single (p q : PromiseId) (s t : Stage) (st : State) :
  constructions st = [(q, t)] ->
  waiting p s st = true -> p = q /\ s = t.
Proof.
  intros Hc. unfold waiting. rewrite Hc. cbn [existsb fst snd].
  rewrite orb_false_r, andb_true_iff. intros [Hp Hs].
  apply Nat.eqb_eq in Hp. split; [congruence|].
  destruct s, t; try reflexivity; discriminate Hs.
Qed.

Lemma without_single (p : PromiseId) (t : Stage) : without p [(p, t)] = [].
Proof. unfold without. cbn [filter fst]. rewrite Nat.eqb_refl. reflexivity. Qed.

Lemma single_flight_step (st : State) (op : Op) :
  single_flight st -> single_flight (fst (step st op)).
Proof.
  intros Hinv. pose proof Hinv as (Hc & Hd).
  assert (Hsettle : forall p s,
             waiting p s st = true ->
             constructions st = [(p, s)] /\ initPromise st = Some p /\
             detectorInstance st = None).
  { intros p s Hw. destruct Hc as [E | (q & t & E & Hp & Hi)].
    - unfold waiting in Hw. rewrite E in Hw. discriminate Hw.
    - destruct (waiting_single p q s t st E Hw) as [-> ->]. auto. }
  destruct op as [|p|p|p h|p|]; cbn [step].
  - unfold initializeDetector.
    destruct (detectorInstance st) eqn:Ei; [exact Hinv|].
    destruct (initPromise st) eqn:Ep; [exact Hinv|].
    assert (E : constructions st = []).
    { destruct Hc as [E | (q & t & _ & Hp & _)]; [exact E|discriminate Hp]. }
    rewrite E. cbn [fst app]. split; cbn.
    + right. eexists. eexists. split; [reflexivity|]. split; reflexivity.
    + intros H. contradiction.
  - destruct (waiting p AwaitingFileset st) eqn:Ew; [|exact Hinv].
    destruct (Hsettle _ _ Ew) as (E & Hp & Hi). rewrite E, without_single.
    cbn [fst app]. split; cbn.
    + right. exists p, AwaitingDetector. auto.
    + rewrite Hi. intros H. contradiction.
  - destruct (waiting p AwaitingFileset st) eqn:Ew; [|exact Hinv].
    destruct (Hsettle _ _ Ew) as (E & Hp & Hi). rewrite E, without_single.
    cbn [fst]. split; cbn; [left; reflexivity|].
    rewrite Hi. intros H. contradiction.
  - destruct (waiting p AwaitingDetector st) eqn:Ew; [|exact Hinv].
    destruct (Hsettle _ _ Ew) as (E & Hp & Hi). rewrite E, without_single.
    cbn [fst]. split; cbn; [left; reflexivity|].
    rewrite Hp. discriminate.
  - destruct (waiting p AwaitingDetector st) eqn:Ew; [|exact Hinv].
    destruct (Hsettle _ _ Ew) as (E & Hp & Hi). rewrite E, without_single.
    cbn [fst]. split; cbn; [left; reflexivity|].
    rewrite Hi. intros H. contradiction.
  - unfold cleanup. destruct (detectorInstance st) as [h|] eqn:Ei; [|exact Hinv].
    cbn [fst]. split; cbn; [|intros H; contradiction].
    destruct Hc as [E | (q & t & _ & _ & Hi)]; [left; exact E|discriminate Hi].
Qed.

Lemma single_flight_run (ops : list Op) (st : State) :
  single_flight st -> single_flight (fst (run st ops)).
Proof.
  revert st. induction ops as [|op rest IH]; intros st H; cbn [run];
    [exact H|].
  pose proof (single_flight_step st op H) as H1.
  destruct (step st op) as [st1 eff1]. cbn [fst] in H1.
  specialize (IH st1 H1).
  destruct (run st1 rest) as [st2 eff2]. exact IH.
Qed.

(** X18.  Whatever calls of [detectFaces] and [cleanup] and whatever answers
    of the loader follow one another from the start: at most one construction
    of the detector is under way, every caller in the meantime shares its
    promise, and no detector exists while it runs; a further call then starts
    nothing, and [cleanup] then does nothing at all, so it neither cancels the
    construction nor closes anything. *)
Theorem detector_single_flight (ops : list Op) :
  let st := fst (run initial ops) in
  single_flight st /\
  (constructions st <> [] ->
   step st Call = (st, []) /\ step st Cleanup = (st, [])).
Proof.
  cbv zeta.
  assert (H : single_flight (fst (run initial ops))).
  { apply single_flight_run. split; [left; reflexivity|].
    intros H. contradiction. }
  split; [exact H|].
  intros Hne. destruct H as ([E | (p & s & E & Hp & Hi)] & _);
    [contradiction|].
  cbn [step]. unfold initializeDetector, cleanup. rewrite Hi, Hp. auto.
Qed.

End Detector.
